(** * generate_doc.py: a Word document assembled from a fixed list of Go files

    The script builds a python-docx [Document]: a title, then for every
    file of [GO_FILES] that [os.path.isfile] accepts a page break, a
    level-1 heading with the file name and one paragraph holding the
    file's text in the paragraph style 'Code'; it saves the document once,
    after the loop.

    The document object is modelled by its list of styles and its list of
    body paragraphs, the file system by a finite map from paths to nodes,
    and the script's effects (console lines, the save) by a trace.  Python
    exceptions are the [Raise] results of an error monad; nothing in the
    script catches one, so a [Raise] ends the run, be it raised by a read,
    by the library or by the save. *)

From stdpp Require Import base option list strings gmap.

Local Open Scope string_scope.
Local Open Scope list_scope.
Local Open Scope Z_scope.

(** ** Exceptions and results *)

Inductive exn :=
  | FileNotFoundError
  | IsADirectoryError
  | PermissionError
  | OSError
  | UnicodeDecodeError
  | ValueError
  | KeyError.

Inductive result (A : Type) :=
  | Ok (a : A)
  | Raise (e : exn).
Arguments Ok {A} a.
Arguments Raise {A} e.

Global Instance result_ret : MRet result := λ A a, Ok a.
Global Instance result_bind : MBind result := λ A B f m,
  match m with
  | Ok a => f a
  | Raise e => Raise e
  end.

(** ** The python-docx objects the script touches *)

Inductive WD_STYLE_TYPE := CHARACTER | LIST | PARAGRAPH | TABLE.
Inductive WD_BREAK := LINE | PAGE | COLUMN.

Global Instance WD_STYLE_TYPE_eq_dec : EqDecision WD_STYLE_TYPE.
Proof. solve_decision. Defined.
Global Instance WD_BREAK_eq_dec : EqDecision WD_BREAK.
Proof. solve_decision. Defined.

(** [Pt(n)] is a length in English Metric Units, 12700 to the point. *)
Definition Pt (points : Z) : Z := points * 12700.

Record RGBColor := rgb { red : Z; green : Z; blue : Z }.

Record Font := {
  font_name : option string;
  font_size : option Z;
  font_color_rgb : option RGBColor
}.

(** A style: its name and type, its run properties ([font]) and, of its
    paragraph properties, the background fill ([w:shd]). *)
Record Style := {
  style_name : string;
  style_type : WD_STYLE_TYPE;
  font : Font;
  style_shd : option string
}.

(** Children of a paragraph's [w:pPr]: the style reference and shading. *)
Inductive pPr_child :=
  | pStyle (val : string)
  | shd (fill : string).

(** A run holds text or a break; [RunText ""] is a run with no content. *)
Inductive Run :=
  | RunText (text : string)
  | RunBreak (type : WD_BREAK).

Record Paragraph := {
  pPr : list pPr_child;
  runs : list Run
}.

Record Document := {
  styles : list Style;
  paragraphs : list Paragraph
}.

Global Instance RGBColor_eq_dec : EqDecision RGBColor.
Proof. solve_decision. Defined.
Global Instance Font_eq_dec : EqDecision Font.
Proof. solve_decision. Defined.
Global Instance Style_eq_dec : EqDecision Style.
Proof. solve_decision. Defined.
Global Instance pPr_child_eq_dec : EqDecision pPr_child.
Proof. solve_decision. Defined.
Global Instance Run_eq_dec : EqDecision Run.
Proof. solve_decision. Defined.
Global Instance Paragraph_eq_dec : EqDecision Paragraph.
Proof. solve_decision. Defined.
Global Instance Document_eq_dec : EqDecision Document.
Proof. solve_decision. Defined.

(** ** The file system and the observable effects of a run *)

(** What a regular file yields to [open(path, 'r', encoding='utf-8')]
    followed by [read()]: the text [read()] returns (decoded, with the
    newlines as text mode translates them), a decoding error, or a refusal
    to open.  A saved document is a ZIP container, not text. *)
Inductive content :=
  | Utf8 (text : string)
  | NotUtf8
  | Unreadable
  | Docx (d : Document).

(** What a path names: a directory, a special file that [open] refuses
    with [OSError] (a socket, say), or a regular file. *)
Inductive node :=
  | Directory
  | Special
  | Regular (c : content).

Inductive event :=
  | Print (line : string)
  | Save (path : string) (d : Document).

(** The world of a run: the disk, what the run has done so far, and the
    paths the operating system refuses to open for writing, each with the
    exception it raises ([PermissionError] for a read-only file or
    directory). *)
Record World := {
  disk : gmap string node;
  trace : list event;
  refused : gmap string exn
}.

(** The script's monad: a computation reads and changes the world and
    either returns or raises. *)
Definition IO (A : Type) : Type := World → result A * World.

Global Instance IO_ret : MRet IO := λ A a w, (Ok a, w).
Global Instance IO_bind : MBind IO := λ A B f m w,
  match m w with
  | (Ok a, w') => f a w'
  | (Raise e, w') => (Raise e, w')
  end.

Definition lift {A} (r : result A) : IO A := λ w, (r, w).

(** ** Constants of the script *)

Definition GO_FILES : list string :=
  ["blueprint.go"; "neuron.go"; "eval.go"; "utils.go"].

Definition OUTPUT_DOC : string := "Go_Code_Documentation.docx".

(** ** python-docx, as far as the script calls it

    Two facts of the library are not in the script and are parameters
    here: the document that [Document()] loads (its default template), and
    the test lxml applies to a text before it stores it in an element
    ("All strings must be XML compatible: Unicode or ASCII, no NULL bytes
    or control characters"), failing with [ValueError]. *)

Section PythonDocx.

Variable default_docx : Document.
Variable xml_compatible : string → bool.

(** *** Styles *)

(** ['Code' in styles] *)
Definition style_in (name : string) (sts : list Style) : bool :=
  bool_decide (name ∈ style_name <$> sts).

(** [styles['Code']]: the first style of that name *)
Definition get_style (name : string) (sts : list Style) : option Style :=
  List.find (λ s, bool_decide (style_name s = name)) sts.

Definition no_font : Font :=
  {| font_name := None; font_size := None; font_color_rgb := None |}.

Definition new_style (name : string) (ty : WD_STYLE_TYPE) : Style :=
  {| style_name := name; style_type := ty; font := no_font; style_shd := None |}.

(** [styles.add_style(name, type)]: refuses a name the document has. *)
Definition add_style (name : string) (ty : WD_STYLE_TYPE) (sts : list Style)
  : result (list Style) :=
  if style_in name sts then Raise ValueError
  else Ok (sts ++ [new_style name ty]).

(** An assignment through a style handle changes the style object inside
    the collection: the first style of that name. *)
Fixpoint with_style (name : string) (f : Style → Style) (sts : list Style)
  : list Style :=
  match sts with
  | [] => []
  | s :: rest =>
      if bool_decide (style_name s = name) then f s :: rest
      else s :: with_style name f rest
  end.

Definition with_font (f : Font → Font) (s : Style) : Style :=
  {| style_name := style_name s; style_type := style_type s;
     font := f (font s); style_shd := style_shd s |}.

Definition set_font_name (v : string) (ft : Font) : Font :=
  {| font_name := Some v; font_size := font_size ft;
     font_color_rgb := font_color_rgb ft |}.

Definition set_font_size (v : Z) (ft : Font) : Font :=
  {| font_name := font_name ft; font_size := Some v;
     font_color_rgb := font_color_rgb ft |}.

Definition set_font_color_rgb (v : RGBColor) (ft : Font) : Font :=
  {| font_name := font_name ft; font_size := font_size ft;
     font_color_rgb := Some v |}.

(** *** Paragraphs *)

Definition empty_paragraph : Paragraph := {| pPr := []; runs := [] |}.

Definition is_pStyle (c : pPr_child) : bool :=
  match c with pStyle _ => true | shd _ => false end.

(** [paragraph.style = name]: the style must exist and be a paragraph
    style; the reference replaces the one the paragraph had. *)
Definition set_paragraph_style (sts : list Style) (name : string)
    (p : Paragraph) : result Paragraph :=
  match get_style name sts with
  | None => Raise KeyError
  | Some s =>
      if bool_decide (style_type s = PARAGRAPH)
      then Ok {| pPr := pStyle name :: List.filter (λ c, negb (is_pStyle c)) (pPr p);
                 runs := runs p |}
      else Raise ValueError
  end.

(** [paragraph.add_run(text)]: a new run; the text is stored only when it
    is not empty ([if text: run.text = text]). *)
Definition add_run (text : string) (p : Paragraph) : result Paragraph :=
  match text with
  | "" => Ok {| pPr := pPr p; runs := runs p ++ [RunText ""] |}
  | _ =>
      if xml_compatible text
      then Ok {| pPr := pPr p; runs := runs p ++ [RunText text] |}
      else Raise ValueError
  end.

(** [pPr.append(shd)] with [w:fill] set *)
Definition append_shd (fill : string) (p : Paragraph) : Paragraph :=
  {| pPr := pPr p ++ [shd fill]; runs := runs p |}.

(** *** Documents *)

Definition with_paragraph (p : Paragraph) (d : Document) : Document :=
  {| styles := styles d; paragraphs := paragraphs d ++ [p] |}.

(** [document.add_paragraph(text, style)] *)
Definition add_paragraph (text : string) (style : option string)
    (d : Document) : result Document :=
  p ← (match text with
       | "" => Ok empty_paragraph
       | _ => add_run text empty_paragraph
       end);
  p ← (match style with
       | None => Ok p
       | Some name => set_paragraph_style (styles d) name p
       end);
  Ok (with_paragraph p d).

(** ["Title" if level == 0 else "Heading %d" % level], for a level in 0-9 *)
Definition heading_style (level : Z) : string :=
  if level =? 0 then "Title"
  else "Heading " +:+ String (Ascii.ascii_of_nat (48 + Z.to_nat level)%nat) "".

(** [document.add_heading(text, level)] *)
Definition add_heading (text : string) (level : Z) (d : Document)
  : result Document :=
  if (0 <=? level) && (level <=? 9)
  then add_paragraph text (Some (heading_style level)) d
  else Raise ValueError.

(** [document.add_page_break()]: a paragraph with one run, a page break *)
Definition add_page_break (d : Document) : Document :=
  with_paragraph {| pPr := []; runs := [RunBreak PAGE] |} d.

(** ** generate_doc.py *)

(** [add_code_paragraph(document, code)].  The paragraph is appended to
    the body by the first statement and changed through its handle; no
    other paragraph is added meanwhile, so the model builds it and appends
    it at the end.  An exception leaves no document to observe. *)
Definition add_code_paragraph (document : Document) (code : string)
  : result Document :=
  let code_paragraph := empty_paragraph in
  let styles_ := styles document in
  styles_ ← (if negb (style_in "Code" styles_) then
               styles_ ← add_style "Code" PARAGRAPH styles_;
               let styles_ := with_style "Code" (with_font (set_font_name "Courier New")) styles_ in
               let styles_ := with_style "Code" (with_font (set_font_size (Pt 10))) styles_ in
               let styles_ := with_style "Code" (with_font (set_font_color_rgb (rgb 0 0 0))) styles_ in
               Ok styles_
             else
               match get_style "Code" styles_ with
               | Some code_style => Ok styles_
               | None => Raise KeyError
               end);
  code_paragraph ← set_paragraph_style styles_ "Code" code_paragraph;
  code_paragraph ← add_run code code_paragraph;
  let code_paragraph := append_shd "D3D3D3" code_paragraph in
  Ok {| styles := styles_; paragraphs := paragraphs document ++ [code_paragraph] |}.

(** [os.path.isfile(path)]: true for a regular file only *)
Definition is_regular (dk : gmap string node) (path : string) : bool :=
  match dk !! path with
  | Some (Regular _) => true
  | _ => false
  end.

Definition isfile (path : string) : IO bool := λ w,
  (Ok (is_regular (disk w) path), w).

(** [with open(path, 'r', encoding='utf-8') as f: f.read()] *)
Definition read_text (path : string) : IO string := λ w,
  (match disk w !! path with
   | None => Raise FileNotFoundError
   | Some Directory => Raise IsADirectoryError
   | Some Special => Raise OSError
   | Some (Regular (Utf8 text)) => Ok text
   | Some (Regular NotUtf8) => Raise UnicodeDecodeError
   | Some (Regular Unreadable) => Raise PermissionError
   | Some (Regular (Docx _)) => Raise UnicodeDecodeError
   end, w).

Definition print (line : string) : IO unit := λ w,
  (Ok (), {| disk := disk w; trace := trace w ++ [Print line];
             refused := refused w |}).

(** The exception [document.save(path)] raises when it opens [path] for
    writing, if any: the path names a directory or a special file, or the
    operating system refuses the write. *)
Definition save_error (w : World) (path : string) : option exn :=
  match disk w !! path with
  | Some Directory => Some IsADirectoryError
  | Some Special => Some OSError
  | Some (Regular _) | None => refused w !! path
  end.

(** [document.save(path)]: the package is written to [path], created or
    replaced, unless the path cannot be opened for writing; then the
    exception is raised and nothing is written. *)
Definition save (d : Document) (path : string) : IO unit := λ w,
  match save_error w path with
  | Some e => (Raise e, w)
  | None =>
      (Ok (), {| disk := <[path := Regular (Docx d)]> (disk w);
                 trace := trace w ++ [Save path d];
                 refused := refused w |})
  end.

Definition warning (go_file : string) : string :=
  "Warning: " +:+ go_file +:+ " does not exist and will be skipped.".

(** The body of [for go_file in GO_FILES], over the files still to visit. *)
Fixpoint for_go_file (files : list string) (document : Document)
  : IO Document :=
  match files with
  | [] => mret document
  | go_file :: rest =>
      is_file ← isfile go_file;
      if negb is_file then
        print (warning go_file);;
        for_go_file rest document
      else
        document ← (match paragraphs document with
                    | [] => mret document
                    | _ :: _ => mret (add_page_break document)
                    end);
        document ← lift (add_heading go_file 1 document);
        code ← read_text go_file;
        document ← lift (add_code_paragraph document code);
        for_go_file rest document
  end.

Definition generate_document : IO unit :=
  let document := default_docx in
  document ← lift (add_heading "Go Code Documentation" 0 document);
  document ← for_go_file GO_FILES document;
  save document OUTPUT_DOC;;
  print ("Documentation successfully generated and saved as " +:+ OUTPUT_DOC).

End PythonDocx.

(** ** What is observed of a document and of a run *)

(** The style a paragraph refers to. *)
Definition paragraph_style (p : Paragraph) : option string :=
  head (omap (λ c, match c with pStyle v => Some v | shd _ => None end) (pPr p)).

(** The fills of the shading elements a paragraph carries itself. *)
Definition paragraph_shd (p : Paragraph) : list string :=
  omap (λ c, match c with shd fill => Some fill | pStyle _ => None end) (pPr p).

Definition run_text (r : Run) : string :=
  match r with
  | RunText t => t
  | RunBreak _ => ""
  end.

(** [paragraph.text] *)
Definition paragraph_text (p : Paragraph) : string :=
  foldr String.append "" (run_text <$> runs p).

Definition is_heading (level : Z) (p : Paragraph) : Prop :=
  paragraph_style p = Some (heading_style level).

Definition is_page_break (p : Paragraph) : Prop :=
  RunBreak PAGE ∈ runs p.

Definition is_code_block (p : Paragraph) : Prop :=
  paragraph_style p = Some "Code".

Global Instance is_heading_dec level p : Decision (is_heading level p).
Proof. unfold is_heading. apply _. Defined.
Global Instance is_page_break_dec p : Decision (is_page_break p).
Proof. unfold is_page_break. apply _. Defined.
Global Instance is_code_block_dec p : Decision (is_code_block p).
Proof. unfold is_code_block. apply _. Defined.

(** The texts of the headings of a level, in document order. *)
Definition headings (level : Z) (d : Document) : list string :=
  paragraph_text <$> filter (is_heading level) (paragraphs d).

Definition page_breaks (d : Document) : nat :=
  length (filter is_page_break (paragraphs d)).

Definition code_blocks (d : Document) : list Paragraph :=
  filter is_code_block (paragraphs d).

(** How many styles of a document bear a name. *)
Definition count_named (name : string) (sts : list Style) : nat :=
  length (filter (λ s, style_name s = name) sts).

(** The documents a run wrote, in order. *)
Definition saves (evs : list event) : list (string * Document) :=
  omap (λ e, match e with Save path d => Some (path, d) | Print _ => None end) evs.

(** What the loop can learn of a path: the content of a regular file. *)
Definition as_file (dk : gmap string node) (path : string) : option content :=
  match dk !! path with
  | Some (Regular c) => Some c
  | _ => None
  end.

(** The entries of a list that the loop processes, and those it skips. *)
Definition processed (dk : gmap string node) (files : list string) : list string :=
  filter (λ f, is_regular dk f = true) files.

Definition skipped (dk : gmap string node) (files : list string) : list string :=
  filter (λ f, is_regular dk f = false) files.

(** ** A small instance of the library parameters, for concrete runs *)

Definition sample_docx : Document :=
  {| styles := [new_style "Normal" PARAGRAPH; new_style "Title" PARAGRAPH;
                new_style "Heading 1" PARAGRAPH;
                new_style "Default Paragraph Font" CHARACTER];
     paragraphs := [] |}.

Definition no_control_chars (s : string) : bool :=
  forallb (λ a, let n := Ascii.nat_of_ascii a in
                (32 <=? n)%nat || (n =? 9)%nat || (n =? 10)%nat || (n =? 13)%nat)
          (String.list_ascii_of_string s).

Definition world_of (files : list (string * node)) : World :=
  {| disk := list_to_map files; trace := []; refused := ∅ |}.

Definition only_blueprint : World :=
  world_of [("blueprint.go", Regular (Utf8 "package main"))].

Definition undecodable_second : World :=
  world_of [("blueprint.go", Regular (Utf8 "package main"));
            ("neuron.go", Regular NotUtf8)].

Definition directory_third : World :=
  world_of [("blueprint.go", Regular (Utf8 "package main"));
            ("eval.go", Directory)].

Definition nothing_on_disk : World := world_of [].

(** The disk of [only_blueprint] beside another file, after earlier output. *)
Definition blueprint_and_readme : World :=
  {| disk := <["README.md" := Regular (Utf8 "PHASE")]> (disk only_blueprint);
     trace := [Print "earlier output"];
     refused := ∅ |}.

(** ** What the Formatter leaves behind, in closed form *)

(** The style the Formatter registers. *)
Definition registered_code_style : Style :=
  {| style_name := "Code"; style_type := PARAGRAPH;
     font := {| font_name := Some "Courier New"; font_size := Some (Pt 10);
                font_color_rgb := Some (rgb 0 0 0) |};
     style_shd := None |}.

Definition code_registered (sts : list Style) : list Style :=
  if style_in "Code" sts then sts else sts ++ [registered_code_style].

(** The paragraph the Formatter appends for a text. *)
Definition code_block_of (code : string) : Paragraph :=
  {| pPr := [pStyle "Code"; shd "D3D3D3"]; runs := [RunText code] |}.

(** A 'Code' style, where a document has one, is a paragraph style with
    the Formatter's font and no shading of its own. *)
Definition code_style_ok (sts : list Style) : Prop :=
  ∀ s, get_style "Code" sts = Some s →
    style_type s = PARAGRAPH ∧
    font_name (font s) = Some "Courier New" ∧
    font_size (font s) = Some (Pt 10) ∧
    font_color_rgb (font s) = Some (rgb 0 0 0) ∧
    style_shd s = None.

(** ** What the Assembler leaves behind, in closed form *)

Definition text_runs (text : string) : list Run :=
  match text with
  | "" => []
  | _ => [RunText text]
  end.

Definition heading_of (level : Z) (text : string) : Paragraph :=
  {| pPr := [pStyle (heading_style level)]; runs := text_runs text |}.

Definition page_break_paragraph : Paragraph :=
  {| pPr := []; runs := [RunBreak PAGE] |}.

(** The text the loop reads from a regular file that decodes. *)
Definition text_at (dk : gmap string node) (path : string) : string :=
  match dk !! path with
  | Some (Regular (Utf8 t)) => t
  | _ => ""
  end.

(** The three paragraphs one processed file adds. *)
Definition section_of (dk : gmap string node) (go_file : string) : list Paragraph :=
  [page_break_paragraph; heading_of 1 go_file; code_block_of (text_at dk go_file)].

(** A regular file the loop gets through: it decodes, and the library
    accepts its text. *)
Definition readable (xml_compatible : string → bool) (dk : gmap string node)
    (path : string) : Prop :=
  ∃ t, dk !! path = Some (Regular (Utf8 t)) ∧ (t = "" ∨ xml_compatible t = true).

Definition title : string := "Go Code Documentation".

Definition completion : string :=
  "Documentation successfully generated and saved as " +:+ OUTPUT_DOC.

(** The document a run saves, from the template and the disk. *)
Definition assembled (default_docx : Document) (dk : gmap string node) : Document :=
  {| styles := match processed dk GO_FILES with
               | [] => styles default_docx
               | _ :: _ => code_registered (styles default_docx)
               end;
     paragraphs := paragraphs default_docx ++
                   heading_of 0 title :: (processed dk GO_FILES ≫= section_of dk) |}.

(** The events a successful run adds to the trace. *)
Definition run_events (default_docx : Document) (dk : gmap string node) : list event :=
  (Print ∘ warning <$> skipped dk GO_FILES) ++
  [Save OUTPUT_DOC (assembled default_docx dk); Print completion].

(** What the script needs of the library: the template has the two
    heading styles as paragraph styles, and the literal texts of the
    script are acceptable to it. *)
Definition paragraph_style_in (name : string) (sts : list Style) : Prop :=
  ∃ s, get_style name sts = Some s ∧ style_type s = PARAGRAPH.

Record library_ok (default_docx : Document) (xml_compatible : string → bool) : Prop := {
  title_style : paragraph_style_in "Title" (styles default_docx);
  heading_1_style : paragraph_style_in "Heading 1" (styles default_docx);
  code_style_free : ∀ s, get_style "Code" (styles default_docx) = Some s →
                         style_type s = PARAGRAPH;
  literals_accepted : Forall (λ t, xml_compatible t = true) (title :: GO_FILES)
}.

(** ** Expected results of the concrete runs *)

Definition formatted_once : Document :=
  {| styles := styles sample_docx ++ [registered_code_style];
     paragraphs := [code_block_of "package main"] |}.

Definition formatted_twice : Document :=
  {| styles := styles sample_docx ++ [registered_code_style];
     paragraphs := [code_block_of "package main"; code_block_of "package eval"] |}.

Definition blueprint_docx : Document :=
  {| styles := styles sample_docx ++ [registered_code_style];
     paragraphs :=
       [{| pPr := [pStyle "Title"]; runs := [RunText "Go Code Documentation"] |};
        {| pPr := []; runs := [RunBreak PAGE] |};
        {| pPr := [pStyle "Heading 1"]; runs := [RunText "blueprint.go"] |};
        {| pPr := [pStyle "Code"; shd "D3D3D3"]; runs := [RunText "package main"] |}] |}.

Definition only_blueprint_after : World :=
  {| disk := <[OUTPUT_DOC := Regular (Docx blueprint_docx)]> (disk only_blueprint);
     trace := [Print "Warning: neuron.go does not exist and will be skipped.";
               Print "Warning: eval.go does not exist and will be skipped.";
               Print "Warning: utils.go does not exist and will be skipped.";
               Save OUTPUT_DOC blueprint_docx;
               Print "Documentation successfully generated and saved as Go_Code_Documentation.docx"];
     refused := ∅ |}.

(** The template with its title, as the loop receives it. *)
Definition titled_sample_docx : Document :=
  {| styles := styles sample_docx;
     paragraphs :=
       [{| pPr := [pStyle "Title"]; runs := [RunText "Go Code Documentation"] |}] |}.

(** [only_blueprint] when the loop has completed and nothing is saved yet. *)
Definition only_blueprint_before_save : World :=
  {| disk := disk only_blueprint;
     trace := [Print "Warning: neuron.go does not exist and will be skipped.";
               Print "Warning: eval.go does not exist and will be skipped.";
               Print "Warning: utils.go does not exist and will be skipped."];
     refused := ∅ |}.

(** No file of the list on disk, and a directory under the output path. *)
Definition output_is_a_directory : World :=
  world_of [(OUTPUT_DOC, Directory)].

Definition output_is_a_directory_after : World :=
  {| disk := disk output_is_a_directory;
     trace := [Print "Warning: blueprint.go does not exist and will be skipped.";
               Print "Warning: neuron.go does not exist and will be skipped.";
               Print "Warning: eval.go does not exist and will be skipped.";
               Print "Warning: utils.go does not exist and will be skipped."];
     refused := ∅ |}.

(** [only_blueprint] with an output path the system refuses to write. *)
Definition output_is_read_only : World :=
  {| disk := <[OUTPUT_DOC := Regular (Utf8 "")]> (disk only_blueprint);
     trace := [];
     refused := {[OUTPUT_DOC := PermissionError]} |}.

(** ** Further notions for the loop and its failures *)

(** The exception a regular file ends the run with, if any: from the
    read, or from the library when it refuses the text. *)
Definition failure_of (xml_compatible : string → bool) (c : content) : option exn :=
  match c with
  | Utf8 "" => None
  | Utf8 t => if xml_compatible t then None else Some ValueError
  | NotUtf8 => Some UnicodeDecodeError
  | Unreadable => Some PermissionError
  | Docx _ => Some UnicodeDecodeError
  end.

(** A list that names a file twice and a missing file in between. *)
Definition blueprint_twice : list string :=
  ["blueprint.go"; "ghost.go"; "blueprint.go"].

Definition blueprint_twice_world : World :=
  {| disk := disk only_blueprint;
     trace := [Print "Warning: ghost.go does not exist and will be skipped."];
     refused := ∅ |}.

(** The loop over [blueprint_twice] from a document with a paragraph. *)
Definition blueprint_twice_after_code : Document :=
  {| styles := styles formatted_once;
     paragraphs :=
       paragraphs formatted_once ++
       [{| pPr := []; runs := [RunBreak PAGE] |};
        {| pPr := [pStyle "Heading 1"]; runs := [RunText "blueprint.go"] |};
        code_block_of "package main";
        {| pPr := []; runs := [RunBreak PAGE] |};
        {| pPr := [pStyle "Heading 1"]; runs := [RunText "blueprint.go"] |};
        code_block_of "package main"] |}.

(** The same loop from the template, whose body is empty. *)
Definition blueprint_twice_from_empty : Document :=
  {| styles := styles sample_docx ++ [registered_code_style];
     paragraphs :=
       [{| pPr := [pStyle "Heading 1"]; runs := [RunText "blueprint.go"] |};
        code_block_of "package main";
        {| pPr := []; runs := [RunBreak PAGE] |};
        {| pPr := [pStyle "Heading 1"]; runs := [RunText "blueprint.go"] |};
        code_block_of "package main"] |}.

(** A template in which 'Code' names a character style. *)
Definition code_is_character_docx : Document :=
  {| styles := styles sample_docx ++ [new_style "Code" CHARACTER];
     paragraphs := [] |}.

(** * Styles: lookup and registration *)

Lemma style_in_cons name s sts :
  style_in name (s :: sts) = bool_decide (style_name s = name) || style_in name sts.
Proof.
  unfold style_in. rewrite fmap_cons.
  apply eq_true_iff_eq.
  rewrite orb_true_iff, !bool_decide_eq_true, elem_of_cons.
  split; (intros [Heq|Hin]; [left | right]); done.
Qed.

Lemma style_in_get_style name sts :
  style_in name sts = true ↔ is_Some (get_style name sts).
Proof.
  induction sts as [|s sts IH]; simpl.
  - unfold style_in. rewrite bool_decide_eq_true. simpl.
    split; [intros H; inversion H | intros [? [=]]].
  - rewrite style_in_cons, orb_true_iff, IH. unfold get_style. simpl.
    case_bool_decide; simpl; split; eauto.
    intros [[=]|?]; done.
Qed.

Lemma style_in_false_get_style name sts :
  style_in name sts = false ↔ get_style name sts = None.
Proof.
  rewrite <- not_true_iff_false, style_in_get_style.
  rewrite <- eq_None_not_Some. done.
Qed.

Lemma get_style_app_l name sts more s :
  get_style name sts = Some s → get_style name (sts ++ more) = Some s.
Proof.
  unfold get_style. induction sts as [|x sts IH]; simpl; [done|].
  destruct (bool_decide (style_name x = name)); auto.
Qed.

Lemma get_style_app_fresh name sts s :
  get_style name sts = None → style_name s = name →
  get_style name (sts ++ [s]) = Some s.
Proof.
  unfold get_style. intros Hnone Hs.
  induction sts as [|x sts IH]; simpl in *.
  - by rewrite bool_decide_eq_true_2.
  - destruct (bool_decide (style_name x = name)); [done | auto].
Qed.

Lemma with_style_fresh name f sts s :
  get_style name sts = None → style_name s = name →
  with_style name f (sts ++ [s]) = sts ++ [f s].
Proof.
  unfold get_style. intros Hnone Hs.
  induction sts as [|x sts IH]; simpl in *.
  - by rewrite bool_decide_eq_true_2.
  - destruct (bool_decide (style_name x = name)); [done|].
    by rewrite IH.
Qed.

Lemma count_named_app name sts more :
  count_named name (sts ++ more) = (count_named name sts + count_named name more)%nat.
Proof. unfold count_named. by rewrite filter_app, length_app. Qed.

Lemma count_named_zero name sts :
  get_style name sts = None → count_named name sts = 0%nat.
Proof.
  unfold get_style, count_named. induction sts as [|x sts IH]; simpl; [done|].
  case_bool_decide as Hx; [done|]. intros Hnone.
  rewrite filter_cons_False by done. auto.
Qed.

(** The styles after the registration branch of the Formatter. *)
Lemma register_code_style sts :
  get_style "Code" sts = None →
  with_style "Code" (with_font (set_font_color_rgb (rgb 0 0 0)))
    (with_style "Code" (with_font (set_font_size (Pt 10)))
      (with_style "Code" (with_font (set_font_name "Courier New"))
        (sts ++ [new_style "Code" PARAGRAPH])))
  = sts ++ [registered_code_style].
Proof.
  intros Hnone. by rewrite !with_style_fresh.
Qed.

Lemma code_registered_idem sts :
  code_registered (code_registered sts) = code_registered sts.
Proof.
  assert (style_in "Code" (code_registered sts) = true) as Hin.
  { unfold code_registered. destruct (style_in "Code" sts) eqn:Hin; [done|].
    apply style_in_get_style. exists registered_code_style.
    apply get_style_app_fresh; [by apply style_in_false_get_style | done]. }
  unfold code_registered at 1. by rewrite Hin.
Qed.

Lemma get_style_code_registered sts :
  get_style "Code" (code_registered sts)
  = match get_style "Code" sts with
    | Some s => Some s
    | None => Some registered_code_style
    end.
Proof.
  unfold code_registered. destruct (style_in "Code" sts) eqn:Hin.
  - apply style_in_get_style in Hin as [s Hs]. by rewrite Hs.
  - apply style_in_false_get_style in Hin. rewrite Hin.
    by apply get_style_app_fresh.
Qed.

Lemma get_style_code_registered_other name sts s :
  get_style name sts = Some s → get_style name (code_registered sts) = Some s.
Proof.
  intros H. unfold code_registered. destruct (style_in "Code" sts); [done|].
  by apply get_style_app_l.
Qed.

(** * The Formatter *)

Section Formatter.

Variable xml_compatible : string → bool.

Lemma add_run_Ok text p p' :
  add_run xml_compatible text p = Ok p' →
  p' = {| pPr := pPr p; runs := runs p ++ [RunText text] |}.
Proof.
  unfold add_run. destruct text as [|a text]; [by intros [= <-]|].
  destruct (xml_compatible _); [by intros [= <-] | done].
Qed.

Lemma add_run_accepted text p :
  text = "" ∨ xml_compatible text = true →
  add_run xml_compatible text p
  = Ok {| pPr := pPr p; runs := runs p ++ [RunText text] |}.
Proof.
  unfold add_run. intros [-> | Hok]; [done|].
  destruct text; [done | by rewrite Hok].
Qed.

Lemma set_paragraph_style_Ok sts name p p' :
  set_paragraph_style sts name p = Ok p' →
  (∃ s, get_style name sts = Some s ∧ style_type s = PARAGRAPH) ∧
  p' = {| pPr := pStyle name :: List.filter (λ c, negb (is_pStyle c)) (pPr p);
          runs := runs p |}.
Proof.
  unfold set_paragraph_style. destruct (get_style name sts) as [s|]; [|done].
  case_bool_decide; [|done]. intros [= <-]. eauto.
Qed.

Lemma set_paragraph_style_found sts name s p :
  get_style name sts = Some s → style_type s = PARAGRAPH →
  set_paragraph_style sts name p
  = Ok {| pPr := pStyle name :: List.filter (λ c, negb (is_pStyle c)) (pPr p);
          runs := runs p |}.
Proof.
  unfold set_paragraph_style. intros -> Hty. by rewrite bool_decide_eq_true_2.
Qed.

(** The styles the Formatter works with after its first [if]. *)
Lemma formatter_styles sts :
  (if negb (style_in "Code" sts) then
     sts' ← add_style "Code" PARAGRAPH sts;
     Ok (with_style "Code" (with_font (set_font_color_rgb (rgb 0 0 0)))
          (with_style "Code" (with_font (set_font_size (Pt 10)))
            (with_style "Code" (with_font (set_font_name "Courier New")) sts')))
   else match get_style "Code" sts with
        | Some code_style => Ok sts
        | None => Raise KeyError
        end)
  = Ok (code_registered sts).
Proof.
  unfold code_registered, add_style.
  destruct (style_in "Code" sts) eqn:Hin; simpl.
  - apply style_in_get_style in Hin as [s ->]. done.
  - f_equal. apply register_code_style. by apply style_in_false_get_style.
Qed.

(** A successful invocation appends one paragraph, the code block, and
    leaves the styles with 'Code' registered. *)
Lemma add_code_paragraph_Ok d code d' :
  add_code_paragraph xml_compatible d code = Ok d' →
  d' = {| styles := code_registered (styles d);
          paragraphs := paragraphs d ++ [code_block_of code] |}.
Proof.
  unfold add_code_paragraph. rewrite formatter_styles. simpl.
  destruct (set_paragraph_style _ _ _) as [p|] eqn:Hp; simpl; [|done].
  apply set_paragraph_style_Ok in Hp as [_ ->]. simpl.
  destruct (add_run _ _ _) as [q|] eqn:Hq; simpl; [|done].
  apply add_run_Ok in Hq as ->. by intros [= <-].
Qed.

(** It succeeds when the text is acceptable and a 'Code' style the
    document already has is a paragraph style. *)
Lemma add_code_paragraph_accepted d code :
  code = "" ∨ xml_compatible code = true →
  (∀ s, get_style "Code" (styles d) = Some s → style_type s = PARAGRAPH) →
  add_code_paragraph xml_compatible d code
  = Ok {| styles := code_registered (styles d);
          paragraphs := paragraphs d ++ [code_block_of code] |}.
Proof.
  intros Hcode Hty.
  unfold add_code_paragraph. rewrite formatter_styles. simpl.
  assert (∃ s, get_style "Code" (code_registered (styles d)) = Some s
               ∧ style_type s = PARAGRAPH) as (s & Hs & Hs').
  { rewrite get_style_code_registered.
    destruct (get_style "Code" (styles d)) as [s|] eqn:E; eauto. }
  rewrite (set_paragraph_style_found _ _ s) by done. simpl.
  rewrite add_run_accepted by done. done.
Qed.

Lemma code_style_ok_registered sts :
  code_style_ok sts → code_style_ok (code_registered sts).
Proof.
  intros Hok s. rewrite get_style_code_registered.
  destruct (get_style "Code" sts) as [s0|] eqn:E.
  - intros [= <-]. by apply Hok.
  - intros [= <-]. done.
Qed.

End Formatter.

(** * The Assembler *)

Section Assembler.

Variable default_docx : Document.
Variable xml_compatible : string → bool.

Lemma add_heading_Ok text level d d' :
  add_heading xml_compatible text level d = Ok d' →
  d' = with_paragraph (heading_of level text) d.
Proof.
  unfold add_heading, add_paragraph.
  destruct (_ && _); [|done].
  destruct text as [|a text]; simpl.
  - destruct (set_paragraph_style _ _ _) as [p|] eqn:Hp; simpl; [|done].
    apply set_paragraph_style_Ok in Hp as [_ ->]. by intros [= <-].
  - destruct (xml_compatible _); simpl; [|done].
    destruct (set_paragraph_style _ _ _) as [p|] eqn:Hp; simpl; [|done].
    apply set_paragraph_style_Ok in Hp as [_ ->]. by intros [= <-].
Qed.

Lemma add_heading_accepted text level d :
  0 ≤ level ≤ 9 →
  text = "" ∨ xml_compatible text = true →
  paragraph_style_in (heading_style level) (styles d) →
  add_heading xml_compatible text level d
  = Ok (with_paragraph (heading_of level text) d).
Proof.
  intros Hlevel Htext (s & Hs & Hty).
  unfold add_heading, add_paragraph.
  assert ((0 <=? level) && (level <=? 9) = true) as ->.
  { apply andb_true_iff. split; apply Z.leb_le; lia. }
  destruct text as [|a text]; simpl.
  - by rewrite (set_paragraph_style_found _ _ s).
  - destruct Htext as [? | ->]; [done|]. simpl.
    by rewrite (set_paragraph_style_found _ _ s).
Qed.

Lemma read_text_Ok path w text :
  (read_text path w).1 = Ok text → text = text_at (disk w) path.
Proof.
  unfold read_text, text_at. simpl.
  destruct (disk w !! path) as [[| |[]]|]; simpl; try done.
  by intros [= <-].
Qed.

Lemma read_text_as_file path w1 w2 :
  is_regular (disk w1) path = true →
  as_file (disk w1) path = as_file (disk w2) path →
  (read_text path w1).1 = (read_text path w2).1.
Proof.
  unfold is_regular, as_file, read_text. simpl.
  destruct (disk w1 !! path) as [[| |c1]|]; try done.
  destruct (disk w2 !! path) as [[| |c2]|]; try done.
  by intros _ [= ->].
Qed.

Lemma is_regular_as_file dk1 dk2 path :
  as_file dk1 path = as_file dk2 path →
  is_regular dk1 path = is_regular dk2 path.
Proof.
  unfold is_regular, as_file.
  destruct (dk1 !! path) as [[| |c1]|]; destruct (dk2 !! path) as [[| |c2]|]; done.
Qed.

Lemma readable_text dk path :
  readable xml_compatible dk path →
  dk !! path = Some (Regular (Utf8 (text_at dk path))) ∧
  (text_at dk path = "" ∨ xml_compatible (text_at dk path) = true).
Proof. unfold readable, text_at. intros (t & -> & Ht). done. Qed.

(** One turn of the loop, without the monad. *)
Lemma for_go_file_cons go_file rest document w :
  for_go_file xml_compatible (go_file :: rest) document w =
  if is_regular (disk w) go_file then
    match add_heading xml_compatible go_file 1
            (match paragraphs document with
             | [] => document
             | _ :: _ => add_page_break document
             end) with
    | Raise e => (Raise e, w)
    | Ok d1 =>
        match (read_text go_file w).1 with
        | Raise e => (Raise e, w)
        | Ok code =>
            match add_code_paragraph xml_compatible d1 code with
            | Raise e => (Raise e, w)
            | Ok d2 => for_go_file xml_compatible rest d2 w
            end
        end
    end
  else
    for_go_file xml_compatible rest document
      {| disk := disk w; trace := trace w ++ [Print (warning go_file)];
         refused := refused w |}.
Proof.
  simpl. unfold mbind, IO_bind, isfile, lift, mret, IO_ret, print. simpl.
  destruct (is_regular (disk w) go_file); simpl; [|done].
  destruct (paragraphs document); simpl.
  - destruct (add_heading _ _ _ _); simpl; [|done].
    destruct (disk w !! go_file) as [[| |[]]|]; simpl; try done.
    all: by destruct (add_code_paragraph _ _ _).
  - destruct (add_heading _ _ _ _); simpl; [|done].
    destruct (disk w !! go_file) as [[| |[]]|]; simpl; try done.
    all: by destruct (add_code_paragraph _ _ _).
Qed.

Lemma processed_cons dk f rest :
  processed dk (f :: rest)
  = if is_regular dk f then f :: processed dk rest else processed dk rest.
Proof.
  unfold processed. destruct (is_regular dk f) eqn:Hreg.
  - by rewrite filter_cons_True.
  - rewrite filter_cons_False; [done | by rewrite Hreg].
Qed.

Lemma skipped_cons dk f rest :
  skipped dk (f :: rest)
  = if is_regular dk f then skipped dk rest else f :: skipped dk rest.
Proof.
  unfold skipped. destruct (is_regular dk f) eqn:Hreg.
  - rewrite filter_cons_False; [done | by rewrite Hreg].
  - by rewrite filter_cons_True.
Qed.

Lemma world_eta w :
  {| disk := disk w; trace := trace w ++ []; refused := refused w |} = w.
Proof. destruct w. simpl. by rewrite app_nil_r. Qed.

(** An exception raised before anything was printed: same result in both
    worlds, no line added. *)
Ltac raised_in_place e :=
  exists (Raise e), (@nil string); simpl; by rewrite !world_eta.

(** The loop reads the disk only through the regular files among its
    entries, never writes it, and adds only printed lines to the trace. *)
Lemma for_go_file_agree files : ∀ document w1 w2,
  (∀ f, f ∈ files → as_file (disk w1) f = as_file (disk w2) f) →
  ∃ r lines,
    for_go_file xml_compatible files document w1
    = (r, {| disk := disk w1; trace := trace w1 ++ (Print <$> lines);
             refused := refused w1 |}) ∧
    for_go_file xml_compatible files document w2
    = (r, {| disk := disk w2; trace := trace w2 ++ (Print <$> lines);
             refused := refused w2 |}).
Proof.
  induction files as [|go_file rest IH]; intros document w1 w2 Hsame.
  - exists (Ok document), []. simpl. by rewrite !world_eta.
  - rewrite !for_go_file_cons.
    assert (as_file (disk w1) go_file = as_file (disk w2) go_file) as Hf
      by (apply Hsame; left).
    assert (∀ f, f ∈ rest → as_file (disk w1) f = as_file (disk w2) f) as Hrest
      by (intros f Hin; apply Hsame; by right).
    rewrite <- (is_regular_as_file _ _ _ Hf).
    destruct (is_regular (disk w1) go_file) eqn:Hreg.
    + rewrite <- (read_text_as_file _ _ _ Hreg Hf).
      destruct (add_heading _ _ _ _) as [d1|e]; [|raised_in_place e].
      destruct (read_text go_file w1).1 as [code|e]; [|raised_in_place e].
      destruct (add_code_paragraph _ _ _) as [d2|e]; [|raised_in_place e].
      by apply IH.
    + destruct (IH document
        {| disk := disk w1; trace := trace w1 ++ [Print (warning go_file)];
           refused := refused w1 |}
        {| disk := disk w2; trace := trace w2 ++ [Print (warning go_file)];
           refused := refused w2 |}
        Hrest) as (r & lines & H1 & H2).
      exists r, (warning go_file :: lines).
      rewrite H1, H2. simpl. by rewrite <- !app_assoc.
Qed.

(** A loop that returns has added the sections of the processed files,
    registered 'Code' if there was one, and printed the warnings. *)
Lemma for_go_file_Ok files : ∀ document w document' w',
  paragraphs document ≠ [] →
  for_go_file xml_compatible files document w = (Ok document', w') →
  w' = {| disk := disk w;
          trace := trace w ++ (Print ∘ warning <$> skipped (disk w) files);
          refused := refused w |} ∧
  document' = {| styles := match processed (disk w) files with
                           | [] => styles document
                           | _ :: _ => code_registered (styles document)
                           end;
                 paragraphs := paragraphs document ++
                               (processed (disk w) files ≫= section_of (disk w)) |}.
Proof.
  induction files as [|go_file rest IH]; intros document w document' w' Hne.
  - simpl. intros [= <- <-]. rewrite world_eta.
    split; [done|]. destruct document. simpl. by rewrite app_nil_r.
  - rewrite for_go_file_cons, processed_cons, skipped_cons.
    destruct (is_regular (disk w) go_file) eqn:Hreg.
    + destruct (paragraphs document) as [|p0 ps] eqn:Hps; [done|].
      destruct (add_heading _ _ _ _) as [d1|e] eqn:Hd1; [|done].
      apply add_heading_Ok in Hd1 as ->.
      destruct (read_text go_file w).1 as [code|e] eqn:Hcode; [|done].
      apply read_text_Ok in Hcode as ->.
      destruct (add_code_paragraph _ _ _) as [d2|e] eqn:Hd2; [|done].
      apply add_code_paragraph_Ok in Hd2 as ->.
      intros Hrun. apply IH in Hrun as [-> ->]; [|simpl; by intros [_ [=]]%app_eq_nil].
      split; [done|]. simpl. f_equal.
      * destruct (processed (disk w) rest); [done|].
        apply code_registered_idem.
      * rewrite Hps. by rewrite <- !app_assoc.
    + intros Hrun. apply IH in Hrun as [-> ->]; [|done].
      simpl. split; [|done]. by rewrite <- app_assoc.
Qed.

(** The loop returns when every regular file among its entries is
    readable and the library accepts the names. *)
Lemma for_go_file_returns files : ∀ document w,
  (∀ f, f ∈ files → is_regular (disk w) f = true →
        readable xml_compatible (disk w) f) →
  (∀ f, f ∈ files → xml_compatible f = true) →
  paragraph_style_in "Heading 1" (styles document) →
  (∀ s, get_style "Code" (styles document) = Some s → style_type s = PARAGRAPH) →
  ∃ document' w', for_go_file xml_compatible files document w = (Ok document', w').
Proof.
  induction files as [|go_file rest IH];
    intros document w Hread Hnames Hh1 Hcode; [by eexists _, _|].
  rewrite for_go_file_cons.
  destruct (is_regular (disk w) go_file) eqn:Hreg.
  - set (d0 := match paragraphs document with
               | [] => document
               | _ :: _ => add_page_break document
               end).
    assert (styles d0 = styles document) as Hd0
      by (unfold d0; by destruct (paragraphs document)).
    rewrite add_heading_accepted;
      [|lia | right; apply Hnames; left | by rewrite Hd0].
    destruct (readable_text (disk w) go_file) as [Hlook Htext];
      [apply Hread; [left | done]|].
    unfold read_text. rewrite Hlook. simpl.
    rewrite add_code_paragraph_accepted; [|done | simpl; by rewrite Hd0].
    apply IH; simpl.
    + intros f Hin. apply Hread. by right.
    + intros f Hin. apply Hnames. by right.
    + rewrite Hd0. destruct Hh1 as (s & Hs & Hty). exists s.
      split; [by apply get_style_code_registered_other | done].
    + rewrite Hd0. intros s. rewrite get_style_code_registered.
      destruct (get_style "Code" (styles document)) eqn:E.
      * intros [= <-]. by apply Hcode.
      * by intros [= <-].
  - apply IH; simpl; [| |done|done].
    + intros f Hin. apply Hread. by right.
    + intros f Hin. apply Hnames. by right.
Qed.

(** The save looks at the output path and at the refusals only. *)
Lemma save_error_frame w lines path :
  save_error {| disk := disk w; trace := lines; refused := refused w |} path
  = save_error w path.
Proof. done. Qed.

(** The whole run, without the monad. *)
Lemma generate_document_eq w :
  generate_document default_docx xml_compatible w =
  match add_heading xml_compatible title 0 default_docx with
  | Raise e => (Raise e, w)
  | Ok d0 =>
      match for_go_file xml_compatible GO_FILES d0 w with
      | (Raise e, w') => (Raise e, w')
      | (Ok d, w') =>
          match save_error w' OUTPUT_DOC with
          | Some e => (Raise e, w')
          | None =>
              (Ok (), {| disk := <[OUTPUT_DOC := Regular (Docx d)]> (disk w');
                         trace := trace w' ++ [Save OUTPUT_DOC d; Print completion];
                         refused := refused w' |})
          end
      end
  end.
Proof.
  unfold generate_document, mbind, IO_bind, lift, save, print. fold title.
  destruct (add_heading _ _ _ _) as [d0|e]; [|done].
  destruct (for_go_file _ _ _ _) as [[d|e] w']; [|done].
  destruct (save_error w' OUTPUT_DOC); [done|].
  simpl. by rewrite <- app_assoc.
Qed.

(** A run that returns has saved the assembled document, once, after the
    warnings and before the completion line. *)
Lemma generate_document_Ok w w' :
  generate_document default_docx xml_compatible w = (Ok (), w') →
  w' = {| disk := <[OUTPUT_DOC := Regular (Docx (assembled default_docx (disk w)))]> (disk w);
          trace := trace w ++ run_events default_docx (disk w);
          refused := refused w |}.
Proof.
  rewrite generate_document_eq.
  destruct (add_heading _ _ _ _) as [d0|e] eqn:Hd0; [|done].
  apply add_heading_Ok in Hd0 as ->.
  destruct (for_go_file _ _ _ _) as [[d|e] w1] eqn:Hloop; [|done].
  apply for_go_file_Ok in Hloop as [-> ->];
    [|simpl; by intros [_ [=]]%app_eq_nil].
  rewrite save_error_frame. destruct (save_error w OUTPUT_DOC); [done|].
  intros [= <-]. unfold run_events, assembled. simpl.
  by rewrite <- !app_assoc.
Qed.

(** A run returns only if the output path could be opened for writing. *)
Lemma generate_document_Ok_save w w' :
  generate_document default_docx xml_compatible w = (Ok (), w') →
  save_error w OUTPUT_DOC = None.
Proof.
  rewrite generate_document_eq.
  destruct (add_heading _ _ _ _) as [d0|e]; [|done].
  destruct (for_go_file_agree GO_FILES d0 w w) as (r & lines & -> & _); [done|].
  destruct r as [d|e]; [|done].
  rewrite save_error_frame. by destruct (save_error w OUTPUT_DOC).
Qed.

(** A run that raises has written nothing and printed at most warnings. *)
Lemma generate_document_Raise w e w' :
  generate_document default_docx xml_compatible w = (Raise e, w') →
  disk w' = disk w ∧ ∃ lines, trace w' = trace w ++ (Print <$> lines).
Proof.
  rewrite generate_document_eq.
  destruct (add_heading _ _ _ _) as [d0|e0]; [|intros [= <- <-]].
  - destruct (for_go_file_agree GO_FILES d0 w w) as (r & lines & Hloop & _); [done|].
    rewrite Hloop. destruct r.
    + rewrite save_error_frame. destruct (save_error w OUTPUT_DOC); [|done].
      intros [= <- <-]. simpl. eauto.
    + intros [= <- <-]. simpl. eauto.
  - split; [done|]. exists []. simpl. by rewrite app_nil_r.
Qed.

(** When the library is as the script expects and every regular file of
    the list is readable, the run gets to its save, and the save decides:
    it raises, after the warnings, or the run returns. *)
Lemma generate_document_reaches_save w :
  library_ok default_docx xml_compatible →
  (∀ f, f ∈ GO_FILES → is_regular (disk w) f = true →
        readable xml_compatible (disk w) f) →
  generate_document default_docx xml_compatible w
  = match save_error w OUTPUT_DOC with
    | Some e =>
        (Raise e, {| disk := disk w;
                     trace := trace w ++ (Print ∘ warning <$> skipped (disk w) GO_FILES);
                     refused := refused w |})
    | None =>
        (Ok (), {| disk := <[OUTPUT_DOC := Regular (Docx (assembled default_docx (disk w)))]> (disk w);
                   trace := trace w ++ run_events default_docx (disk w);
                   refused := refused w |})
    end.
Proof.
  intros [Htitle Hh1 Hcode Hlit] Hread.
  apply Forall_cons in Hlit as [Htitle_ok Hnames].
  rewrite generate_document_eq.
  rewrite add_heading_accepted; [|lia | by right | done].
  destruct (for_go_file_returns GO_FILES
              (with_paragraph (heading_of 0 title) default_docx) w)
    as (d & w1 & Hloop); try done.
  { intros f Hin. by apply (proj1 (Forall_forall _ _) Hnames). }
  rewrite Hloop.
  apply for_go_file_Ok in Hloop as [-> ->];
    [|simpl; by intros [_ [=]]%app_eq_nil].
  rewrite save_error_frame. destruct (save_error w OUTPUT_DOC); [done|].
  unfold run_events, assembled. simpl. by rewrite <- !app_assoc.
Qed.

(** A run returns when, besides, the output path can be opened for
    writing. *)
Lemma generate_document_returns w :
  library_ok default_docx xml_compatible →
  (∀ f, f ∈ GO_FILES → is_regular (disk w) f = true →
        readable xml_compatible (disk w) f) →
  save_error w OUTPUT_DOC = None →
  generate_document default_docx xml_compatible w
  = (Ok (), {| disk := <[OUTPUT_DOC := Regular (Docx (assembled default_docx (disk w)))]> (disk w);
               trace := trace w ++ run_events default_docx (disk w);
               refused := refused w |}).
Proof.
  intros Hlib Hread Hsave.
  by rewrite generate_document_reaches_save, Hsave.
Qed.

(** * Reading the assembled document *)

Lemma append_empty_r (s : string) : String.append s "" = s.
Proof.
  induction s as [|a s IH]; [done|].
  change (String a (s +:+ "") = String a s). by rewrite IH.
Qed.

Lemma paragraph_text_heading level text :
  paragraph_text (heading_of level text) = text.
Proof.
  unfold paragraph_text, heading_of. destruct text as [|a text]; [done|].
  change (String a text +:+ "" = String a text). apply append_empty_r.
Qed.

Lemma headings_sections dk (files : list string) :
  filter (is_heading 1) (files ≫= section_of dk) = heading_of 1 <$> files.
Proof.
  induction files as [|f files IH]; [done|].
  rewrite bind_cons, fmap_cons. unfold section_of at 1. simpl.
  rewrite filter_cons_False by done.
  rewrite filter_cons_True by done.
  rewrite filter_cons_False by done.
  by rewrite IH.
Qed.

Lemma page_breaks_sections dk (files : list string) :
  filter is_page_break (files ≫= section_of dk)
  = replicate (length files) page_break_paragraph.
Proof.
  induction files as [|f files IH]; [done|].
  rewrite bind_cons. unfold section_of at 1. simpl.
  rewrite filter_cons_True by (unfold is_page_break; simpl; by left).
  rewrite filter_cons_False.
  2:{ unfold is_page_break, heading_of, text_runs. destruct f; simpl.
      - by intros ?%elem_of_nil.
      - intros [=]%list_elem_of_singleton. }
  rewrite filter_cons_False by (by intros [=]%list_elem_of_singleton).
  by rewrite IH.
Qed.

Lemma code_blocks_sections dk (files : list string) :
  filter is_code_block (files ≫= section_of dk)
  = code_block_of ∘ text_at dk <$> files.
Proof.
  induction files as [|f files IH]; [done|].
  rewrite bind_cons, fmap_cons. unfold section_of at 1. simpl.
  rewrite filter_cons_False by done.
  rewrite filter_cons_False by done.
  rewrite filter_cons_True by done.
  by rewrite IH.
Qed.

Lemma paragraphs_assembled dk :
  paragraphs default_docx = [] →
  paragraphs (assembled default_docx dk)
  = heading_of 0 title :: (processed dk GO_FILES ≫= section_of dk).
Proof. unfold assembled. simpl. by intros ->. Qed.

Lemma headings_assembled dk :
  paragraphs default_docx = [] →
  headings 1 (assembled default_docx dk) = processed dk GO_FILES.
Proof.
  intros Hempty. unfold headings. rewrite paragraphs_assembled by done.
  rewrite filter_cons_False by done.
  rewrite headings_sections, <- list_fmap_compose.
  rewrite <- (list_fmap_id (processed dk GO_FILES)) at 2.
  apply list_fmap_ext. intros _ f _. apply paragraph_text_heading.
Qed.

Lemma page_breaks_assembled dk :
  paragraphs default_docx = [] →
  page_breaks (assembled default_docx dk) = length (processed dk GO_FILES).
Proof.
  intros Hempty. unfold page_breaks. rewrite paragraphs_assembled by done.
  rewrite filter_cons_False by (by intros [=]%list_elem_of_singleton).
  by rewrite page_breaks_sections, length_replicate.
Qed.

Lemma code_blocks_assembled dk :
  paragraphs default_docx = [] →
  code_blocks (assembled default_docx dk)
  = code_block_of ∘ text_at dk <$> processed dk GO_FILES.
Proof.
  intros Hempty. unfold code_blocks. rewrite paragraphs_assembled by done.
  rewrite filter_cons_False by done.
  apply code_blocks_sections.
Qed.

End Assembler.

(** * Events, warnings and the fixed list *)

Lemma saves_app evs1 evs2 : saves (evs1 ++ evs2) = saves evs1 ++ saves evs2.
Proof. unfold saves. apply omap_app. Qed.

Lemma saves_Print (lines : list string) : saves (Print <$> lines) = [].
Proof. induction lines as [|l lines IH]; [done|]. by rewrite fmap_cons. Qed.

Lemma saves_run_events default_docx dk :
  saves (run_events default_docx dk) = [(OUTPUT_DOC, assembled default_docx dk)].
Proof.
  unfold run_events. rewrite saves_app, list_fmap_compose, saves_Print. done.
Qed.

Lemma NoDup_GO_FILES : NoDup GO_FILES.
Proof. apply (bool_decide_unpack _). by vm_compute. Qed.

Lemma OUTPUT_DOC_not_input : OUTPUT_DOC ∉ GO_FILES.
Proof. apply (bool_decide_unpack _). by vm_compute. Qed.

Lemma once_in_NoDup (f : string) (l : list string) :
  NoDup l → f ∈ l → length (filter (λ t, t = f) l) = 1%nat.
Proof.
  induction 1 as [|x l Hx Hl IH]; [by intros ?%elem_of_nil|].
  intros [->|Hin]%elem_of_cons.
  - rewrite filter_cons_True by done. simpl. f_equal.
    apply length_zero_iff_nil, elem_of_nil_inv.
    intros t [-> Ht]%list_elem_of_filter. done.
  - rewrite filter_cons_False by (intros ->; done). auto.
Qed.

Lemma processed_NoDup dk : NoDup (processed dk GO_FILES).
Proof. apply NoDup_filter, NoDup_GO_FILES. Qed.

Lemma skipped_NoDup dk : NoDup (skipped dk GO_FILES).
Proof. apply NoDup_filter, NoDup_GO_FILES. Qed.

Lemma skipped_all dk (files : list string) :
  (∀ f, f ∈ files → is_regular dk f = false) → skipped dk files = files.
Proof.
  induction files as [|f files IH]; [done|]. intros Hall.
  rewrite skipped_cons, Hall by left. f_equal. apply IH.
  intros g Hg. apply Hall. by right.
Qed.

Lemma processed_none dk (files : list string) :
  (∀ f, f ∈ files → is_regular dk f = false) → processed dk files = [].
Proof.
  induction files as [|f files IH]; [done|]. intros Hall.
  rewrite processed_cons, Hall by left. apply IH.
  intros g Hg. apply Hall. by right.
Qed.

Lemma is_regular_None dk path : dk !! path = None → is_regular dk path = false.
Proof. unfold is_regular. by intros ->. Qed.

(** * The properties of the specification *)

Section Claims.

Variable default_docx : Document.
Variable xml_compatible : string → bool.

(** Two worlds that show the same regular files under the names of the
    list, and answer alike to a write at the output path, run alike: same
    result, same events. *)
Lemma generate_document_agree w1 w2 :
  (∀ f, f ∈ GO_FILES → as_file (disk w1) f = as_file (disk w2) f) →
  save_error w1 OUTPUT_DOC = save_error w2 OUTPUT_DOC →
  ∃ r evs dk1 dk2,
    generate_document default_docx xml_compatible w1
    = (r, {| disk := dk1; trace := trace w1 ++ evs; refused := refused w1 |}) ∧
    generate_document default_docx xml_compatible w2
    = (r, {| disk := dk2; trace := trace w2 ++ evs; refused := refused w2 |}).
Proof.
  intros Hsame Hsave. rewrite !generate_document_eq.
  destruct (add_heading _ _ _ _) as [d0|e].
  - destruct (for_go_file_agree xml_compatible GO_FILES d0 w1 w2 Hsame)
      as (r & lines & -> & ->).
    destruct r as [d|e]; simpl.
    + rewrite !save_error_frame, <- Hsave.
      destruct (save_error w1 OUTPUT_DOC) as [e|].
      * eexists (Raise e), _, _, _. done.
      * eexists (Ok ()), _, _, _. rewrite <- !app_assoc. done.
    + eexists (Raise e), _, _, _. done.
  - exists (Raise e), [], (disk w1), (disk w2). by rewrite !world_eta.
Qed.

(** Every processed file brings its page break, the first one too: the
    document has a paragraph, the title, when the loop tests
    [document.paragraphs]. *)
Lemma one_page_break_per_processed_file w w' :
  paragraphs default_docx = [] →
  generate_document default_docx xml_compatible w = (Ok (), w') →
  ∃ d, disk w' !! OUTPUT_DOC = Some (Regular (Docx d)) ∧
       page_breaks d = length (processed (disk w) GO_FILES) ∧
       paragraphs d
       = heading_of 0 title :: (processed (disk w) GO_FILES ≫= section_of (disk w)).
Proof.
  intros Hempty ->%generate_document_Ok.
  exists (assembled default_docx (disk w)).
  split; [simpl; apply lookup_insert_eq|].
  by rewrite page_breaks_assembled, paragraphs_assembled.
Qed.

(** C2. In the document a run saves, the level-1 headings are, in order,
    the names of the list that are files on disk (the script's
    [os.path.isfile] test); hence each such name heads exactly one
    section. *)
Theorem C2_headings_in_list_order w w' :
  paragraphs default_docx = [] →
  generate_document default_docx xml_compatible w = (Ok (), w') →
  ∃ d, disk w' !! OUTPUT_DOC = Some (Regular (Docx d)) ∧
       headings 1 d = filter (λ f, is_regular (disk w) f = true) GO_FILES ∧
       ∀ f, f ∈ GO_FILES → is_regular (disk w) f = true →
            length (filter (λ t, t = f) (headings 1 d)) = 1%nat.
Proof.
  intros Hempty Hrun. apply generate_document_Ok in Hrun as ->.
  exists (assembled default_docx (disk w)). simpl.
  rewrite lookup_insert_eq, headings_assembled by done.
  split; [done|]. split; [done|]. intros f Hin Hreg.
  apply once_in_NoDup; [apply processed_NoDup|].
  by apply list_elem_of_filter.
Qed.

(** C3. A name of the list that is absent from disk makes the loop print
    exactly its warning line and go on with the remaining entries, the
    document untouched; in a run that returns, the name is warned about
    once and heads no section, and every page break and code block belongs
    to a heading.  Absent names never keep a run from its save: when the
    files that are there are readable the run gets to the save, and it
    returns with the document saved unless the save itself raises. *)
Theorem C3_missing_file_skipped w go_file :
  go_file ∈ GO_FILES →
  disk w !! go_file = None →
  paragraphs default_docx = [] →
  (∀ rest document,
     for_go_file xml_compatible (go_file :: rest) document w
     = for_go_file xml_compatible rest document
         {| disk := disk w;
            trace := trace w ++
              [Print ("Warning: " +:+ go_file +:+ " does not exist and will be skipped.")];
            refused := refused w |}) ∧
  (∀ w', generate_document default_docx xml_compatible w = (Ok (), w') →
     ∃ d warned,
       trace w' = trace w ++ (Print ∘ warning <$> warned) ++
                  [Save OUTPUT_DOC d; Print completion] ∧
       length (filter (λ t, t = go_file) warned) = 1%nat ∧
       (go_file ∉ headings 1 d) ∧
       page_breaks d = length (headings 1 d) ∧
       length (code_blocks d) = length (headings 1 d)) ∧
  (library_ok default_docx xml_compatible →
   (∀ f, f ∈ GO_FILES → is_regular (disk w) f = true →
         readable xml_compatible (disk w) f) →
   match save_error w OUTPUT_DOC with
   | Some e =>
       (generate_document default_docx xml_compatible w).1 = Raise e
   | None =>
       ∃ d, (generate_document default_docx xml_compatible w).1 = Ok () ∧
            saves (trace (generate_document default_docx xml_compatible w).2)
            = saves (trace w) ++ [(OUTPUT_DOC, d)]
   end).
Proof.
  intros Hin Hmiss Hempty. pose proof (is_regular_None _ _ Hmiss) as Hreg.
  split; [|split].
  - intros rest document. by rewrite for_go_file_cons, Hreg.
  - intros w' ->%generate_document_Ok.
    exists (assembled default_docx (disk w)), (skipped (disk w) GO_FILES).
    rewrite headings_assembled, page_breaks_assembled, code_blocks_assembled by done.
    split; [done|]. split; [|split; [|split]].
    + apply once_in_NoDup; [apply skipped_NoDup|]. by apply list_elem_of_filter.
    + intros [Hreg' _]%list_elem_of_filter. congruence.
    + done.
    + by rewrite length_fmap.
  - intros Hlib Hread. rewrite generate_document_reaches_save by done.
    destruct (save_error w OUTPUT_DOC); [done|]. simpl.
    eexists. split; [done|]. by rewrite saves_app, saves_run_events.
Qed.

(** C6. With no name of the list on disk and an output path that can be
    opened for writing, the run returns: it prints the four warnings,
    saves a document that holds the title heading alone (no page break, no
    code block, the template's styles) and prints the completion line. *)
Theorem C6_all_missing w :
  library_ok default_docx xml_compatible →
  paragraphs default_docx = [] →
  (∀ f, f ∈ GO_FILES → disk w !! f = None) →
  save_error w OUTPUT_DOC = None →
  let d := {| styles := styles default_docx;
              paragraphs := [{| pPr := [pStyle "Title"];
                                runs := [RunText "Go Code Documentation"] |}] |} in
  generate_document default_docx xml_compatible w
  = (Ok (), {| disk := <[OUTPUT_DOC := Regular (Docx d)]> (disk w);
               trace := trace w ++ (Print ∘ warning <$> GO_FILES) ++
                        [Save OUTPUT_DOC d; Print completion];
               refused := refused w |}) ∧
  page_breaks d = 0%nat ∧ code_blocks d = [].
Proof.
  intros Hlib Hempty Hmiss Hsave.
  assert (∀ f, f ∈ GO_FILES → is_regular (disk w) f = false) as Hreg
    by (intros f Hin; by apply is_regular_None, Hmiss).
  split; [|done].
  rewrite generate_document_returns; [|done | intros f Hin; by rewrite Hreg | done].
  unfold run_events, assembled.
  rewrite (skipped_all _ _ Hreg), (processed_none _ _ Hreg), Hempty. done.
Qed.

(** C7. The run follows its loop.  While the loop runs nothing is saved
    and the disk is as it was.  If the loop raises, the run raises the
    same exception there and then, so nothing is ever written.  If the
    loop completes, the run saves the document the loop built, once, and
    then prints the completion line; should the output path refuse the
    write, the run raises that exception and the disk is as it was. *)
Theorem C7_saved_once_after_loop w :
  match add_heading xml_compatible "Go Code Documentation" 0 default_docx with
  | Raise e =>
      generate_document default_docx xml_compatible w = (Raise e, w)
  | Ok titled =>
      match for_go_file xml_compatible GO_FILES titled w with
      | (Raise e, w1) =>
          generate_document default_docx xml_compatible w = (Raise e, w1) ∧
          disk w1 = disk w ∧ saves (trace w1) = saves (trace w)
      | (Ok document, w1) =>
          disk w1 = disk w ∧ saves (trace w1) = saves (trace w) ∧
          match save_error w OUTPUT_DOC with
          | Some e =>
              generate_document default_docx xml_compatible w = (Raise e, w1)
          | None =>
              ∃ w', generate_document default_docx xml_compatible w = (Ok (), w') ∧
                disk w' = <[OUTPUT_DOC := Regular (Docx document)]> (disk w) ∧
                trace w' = trace w1 ++ [Save OUTPUT_DOC document; Print completion] ∧
                saves (trace w') = saves (trace w) ++ [(OUTPUT_DOC, document)]
          end
      end
  end.
Proof.
  rewrite generate_document_eq. fold title.
  destruct (add_heading _ _ _ _) as [titled|e]; [|done].
  destruct (for_go_file_agree xml_compatible GO_FILES titled w w)
    as (r & lines & -> & _); [done|].
  assert (saves (trace w ++ (Print <$> lines)) = saves (trace w)) as Hloop
    by (by rewrite saves_app, saves_Print, app_nil_r).
  destruct r as [document|e]; simpl; [|done].
  split; [done|]. split; [done|].
  rewrite save_error_frame. destruct (save_error w OUTPUT_DOC); [done|].
  eexists. split; [done|]. simpl. split; [done|]. split; [done|].
  by rewrite saves_app, Hloop.
Qed.


(** C9. A name of the list that is on disk as something else than a
    regular file goes the way of a missing name: the loop prints the
    warning and goes on without reading it, and the run has the result
    and the trace it has when the name is absent from the disk. *)
Theorem C9_non_regular_like_missing w go_file n :
  go_file ∈ GO_FILES →
  disk w !! go_file = Some n →
  n = Directory ∨ n = Special →
  (∀ rest document,
     for_go_file xml_compatible (go_file :: rest) document w
     = for_go_file xml_compatible rest document
         {| disk := disk w;
            trace := trace w ++ [Print (warning go_file)];
            refused := refused w |}) ∧
  let w0 := {| disk := delete go_file (disk w); trace := trace w;
               refused := refused w |} in
  (generate_document default_docx xml_compatible w).1
  = (generate_document default_docx xml_compatible w0).1 ∧
  trace (generate_document default_docx xml_compatible w).2
  = trace (generate_document default_docx xml_compatible w0).2.
Proof.
  intros Hin Hnode Hkind.
  assert (as_file (disk w) go_file = None) as Hnone
    by (unfold as_file; rewrite Hnode; by destruct Hkind as [-> | ->]).
  assert (go_file ≠ OUTPUT_DOC) as Hout
    by (intros ->; by apply OUTPUT_DOC_not_input).
  split.
  - intros rest document. rewrite for_go_file_cons.
    unfold is_regular. rewrite Hnode. by destruct Hkind as [-> | ->].
  - intros w0.
    destruct (generate_document_agree w w0) as (r & evs & dk1 & dk2 & -> & ->);
      [| |done].
    + intros f _. unfold w0. simpl. destruct (decide (f = go_file)) as [->|Hne].
      * rewrite Hnone. unfold as_file. by rewrite lookup_delete_eq.
      * unfold as_file. by rewrite lookup_delete_ne.
    + unfold save_error, w0. simpl. by rewrite lookup_delete_ne.
Qed.

(** C4. The Formatter registers the style 'Code' when the document has no
    style of that name, and only then: a second invocation leaves the
    styles as the first left them, and a document with at most one style
    'Code' has exactly one after any number of further invocations. *)
Theorem C4_code_style_registered_once d code1 code2 d1 d2 :
  add_code_paragraph xml_compatible d code1 = Ok d1 →
  add_code_paragraph xml_compatible d1 code2 = Ok d2 →
  styles d2 = styles d1 ∧
  (style_in "Code" (styles d) = false →
     styles d1 = styles d ++ [registered_code_style] ∧
     count_named "Code" (styles d1) = 1%nat ∧
     count_named "Code" (styles d2) = 1%nat) ∧
  (style_in "Code" (styles d) = true → styles d1 = styles d).
Proof.
  intros ->%add_code_paragraph_Ok ->%add_code_paragraph_Ok. simpl.
  split; [apply code_registered_idem|]. rewrite code_registered_idem.
  unfold code_registered. split; intros Hin; rewrite Hin; [|done].
  split; [done|]. rewrite count_named_app.
  rewrite count_named_zero by (by apply style_in_false_get_style).
  done.
Qed.

(** C5. On a document whose style 'Code', if it has one, is the
    Formatter's, an invocation appends a paragraph in the style 'Code';
    that style is a paragraph style with the font Courier New, 10 points,
    black, and no shading of its own; the light-gray fill is an element
    of the paragraph itself.  The document is again such a document. *)
Theorem C5_code_block_formatting d code d' :
  code_style_ok (styles d) →
  add_code_paragraph xml_compatible d code = Ok d' →
  code_style_ok (styles d') ∧
  ∃ p s,
    paragraphs d' = paragraphs d ++ [p] ∧
    runs p = [RunText code] ∧
    paragraph_style p = Some "Code" ∧
    get_style "Code" (styles d') = Some s ∧
    style_type s = PARAGRAPH ∧
    font_name (font s) = Some "Courier New" ∧
    font_size (font s) = Some (Pt 10) ∧
    font_color_rgb (font s) = Some (rgb 0 0 0) ∧
    style_shd s = None ∧
    paragraph_shd p = ["D3D3D3"].
Proof.
  intros Hok ->%add_code_paragraph_Ok. simpl.
  pose proof (code_style_ok_registered _ Hok) as Hok'.
  split; [done|].
  destruct (get_style "Code" (code_registered (styles d))) as [s|] eqn:Hs.
  - destruct (Hok' s Hs) as (? & ? & ? & ? & ?).
    by exists (code_block_of code), s.
  - rewrite get_style_code_registered in Hs.
    by destruct (get_style "Code" (styles d)).
Qed.

(** C10. Every invocation that returns appends a paragraph whose own
    properties are the reference to 'Code' followed by the fill D3D3D3,
    whether or not the document had the style; the shadings of the styles
    are as they were, and a style it registers has none. *)
Theorem C10_shading_on_the_paragraph d code d' :
  add_code_paragraph xml_compatible d code = Ok d' →
  ∃ p, paragraphs d' = paragraphs d ++ [p] ∧
       pPr p = [pStyle "Code"; shd "D3D3D3"] ∧
       style_shd <$> styles d'
       = (style_shd <$> styles d) ++
         (if style_in "Code" (styles d) then [] else [None]).
Proof.
  intros ->%add_code_paragraph_Ok. exists (code_block_of code). simpl.
  split; [done|]. split; [done|].
  unfold code_registered. destruct (style_in "Code" (styles d)).
  - by rewrite app_nil_r.
  - by rewrite fmap_app.
Qed.

End Claims.

(** * Concrete runs *)

Lemma sample_library_ok : library_ok sample_docx no_control_chars.
Proof.
  split.
  - by exists (new_style "Title" PARAGRAPH).
  - by exists (new_style "Heading 1" PARAGRAPH).
  - intros s Hs. by vm_compute in Hs.
  - by repeat constructor.
Qed.

Lemma sample_code_style_ok : code_style_ok (styles sample_docx).
Proof. intros s Hs. by vm_compute in Hs. Qed.

Lemma only_blueprint_run :
  generate_document sample_docx no_control_chars only_blueprint
  = (Ok (), only_blueprint_after).
Proof. vm_compute. reflexivity. Qed.

(** C1. With blueprint.go the only file of the list on disk, the run
    saves a document whose second paragraph, between the title and the
    heading of that first and only processed file, is a page break: one
    page break for one processed file. *)
Theorem C1_page_break_before_first_file :
  generate_document sample_docx no_control_chars only_blueprint
  = (Ok (), only_blueprint_after) ∧
  disk only_blueprint_after !! OUTPUT_DOC = Some (Regular (Docx blueprint_docx)) ∧
  headings 1 blueprint_docx = ["blueprint.go"] ∧
  paragraphs blueprint_docx !! 1%nat = Some {| pPr := []; runs := [RunBreak PAGE] |} ∧
  paragraphs blueprint_docx !! 2%nat
  = Some {| pPr := [pStyle "Heading 1"]; runs := [RunText "blueprint.go"] |} ∧
  page_breaks blueprint_docx = 1%nat.
Proof.
  split; [apply only_blueprint_run|].
  split; [apply lookup_insert_eq|].
  by vm_compute.
Qed.

(** The run of C7 that raises: the second file does not decode, the
    first is already in the document, and nothing is written. *)
Example undecodable_second_run :
  generate_document sample_docx no_control_chars undecodable_second
  = (Raise UnicodeDecodeError, undecodable_second).
Proof. vm_compute. reflexivity. Qed.

Lemma C2_witness :
  paragraphs sample_docx = [] ∧
  generate_document sample_docx no_control_chars only_blueprint
  = (Ok (), only_blueprint_after) ∧
  ∃ d, disk only_blueprint_after !! OUTPUT_DOC = Some (Regular (Docx d)) ∧
       headings 1 d
       = filter (λ f, is_regular (disk only_blueprint) f = true) GO_FILES ∧
       ∀ f, f ∈ GO_FILES → is_regular (disk only_blueprint) f = true →
            length (filter (λ t, t = f) (headings 1 d)) = 1%nat.
Proof.
  split; [reflexivity|]. split; [vm_compute; reflexivity|].
  apply (C2_headings_in_list_order sample_docx no_control_chars
           only_blueprint only_blueprint_after);
    [reflexivity | vm_compute; reflexivity].
Defined.

Lemma C3_witness :
  "neuron.go" ∈ GO_FILES ∧
  disk only_blueprint !! "neuron.go" = None ∧
  paragraphs sample_docx = [] ∧
  (∀ rest document,
     for_go_file no_control_chars ("neuron.go" :: rest) document only_blueprint
     = for_go_file no_control_chars rest document
         {| disk := disk only_blueprint;
            trace := trace only_blueprint ++
              [Print ("Warning: " +:+ "neuron.go" +:+ " does not exist and will be skipped.")];
            refused := refused only_blueprint |}) ∧
  (∀ w', generate_document sample_docx no_control_chars only_blueprint = (Ok (), w') →
     ∃ d warned,
       trace w' = trace only_blueprint ++ (Print ∘ warning <$> warned) ++
                  [Save OUTPUT_DOC d; Print completion] ∧
       length (filter (λ t, t = "neuron.go") warned) = 1%nat ∧
       ("neuron.go" ∉ headings 1 d) ∧
       page_breaks d = length (headings 1 d) ∧
       length (code_blocks d) = length (headings 1 d)) ∧
  (library_ok sample_docx no_control_chars →
   (∀ f, f ∈ GO_FILES → is_regular (disk only_blueprint) f = true →
         readable no_control_chars (disk only_blueprint) f) →
   match save_error only_blueprint OUTPUT_DOC with
   | Some e =>
       (generate_document sample_docx no_control_chars only_blueprint).1 = Raise e
   | None =>
       ∃ d, (generate_document sample_docx no_control_chars only_blueprint).1 = Ok () ∧
            saves (trace (generate_document sample_docx no_control_chars only_blueprint).2)
            = saves (trace only_blueprint) ++ [(OUTPUT_DOC, d)]
   end).
Proof.
  split; [apply (bool_decide_unpack _); vm_compute; reflexivity|].
  split; [vm_compute; reflexivity|]. split; [reflexivity|].
  apply (C3_missing_file_skipped sample_docx no_control_chars
           only_blueprint "neuron.go").
  - apply (bool_decide_unpack _). vm_compute. reflexivity.
  - vm_compute. reflexivity.
  - reflexivity.
Defined.

Lemma C4_witness :
  add_code_paragraph no_control_chars sample_docx "package main" = Ok formatted_once ∧
  add_code_paragraph no_control_chars formatted_once "package eval" = Ok formatted_twice ∧
  styles formatted_twice = styles formatted_once ∧
  (style_in "Code" (styles sample_docx) = false →
     styles formatted_once = styles sample_docx ++ [registered_code_style] ∧
     count_named "Code" (styles formatted_once) = 1%nat ∧
     count_named "Code" (styles formatted_twice) = 1%nat) ∧
  (style_in "Code" (styles sample_docx) = true →
     styles formatted_once = styles sample_docx).
Proof.
  split; [vm_compute; reflexivity|]. split; [vm_compute; reflexivity|].
  apply (C4_code_style_registered_once no_control_chars sample_docx
           "package main" "package eval" formatted_once formatted_twice);
    vm_compute; reflexivity.
Defined.

(** C5 with the shading among the attributes of the style fails on a new
    document: the style the Formatter registers has the three font
    attributes and no shading. *)
Lemma C5_registered_style_has_no_shading :
  add_code_paragraph no_control_chars sample_docx "package main" = Ok formatted_once ∧
  ¬ ∃ s, get_style "Code" (styles formatted_once) = Some s ∧
         font_name (font s) = Some "Courier New" ∧
         font_size (font s) = Some (Pt 10) ∧
         font_color_rgb (font s) = Some (rgb 0 0 0) ∧
         style_shd s = Some "D3D3D3".
Proof.
  split; [vm_compute; reflexivity|].
  intros (s & Hs & _ & _ & _ & Hshd).
  vm_compute in Hs. injection Hs as <-. discriminate Hshd.
Qed.

Lemma C5_witness :
  code_style_ok (styles sample_docx) ∧
  add_code_paragraph no_control_chars sample_docx "package main" = Ok formatted_once ∧
  code_style_ok (styles formatted_once) ∧
  ∃ p s,
    paragraphs formatted_once = paragraphs sample_docx ++ [p] ∧
    runs p = [RunText "package main"] ∧
    paragraph_style p = Some "Code" ∧
    get_style "Code" (styles formatted_once) = Some s ∧
    style_type s = PARAGRAPH ∧
    font_name (font s) = Some "Courier New" ∧
    font_size (font s) = Some (Pt 10) ∧
    font_color_rgb (font s) = Some (rgb 0 0 0) ∧
    style_shd s = None ∧
    paragraph_shd p = ["D3D3D3"].
Proof.
  split; [apply sample_code_style_ok|].
  split; [vm_compute; reflexivity|].
  apply (C5_code_block_formatting no_control_chars sample_docx
           "package main" formatted_once).
  - apply sample_code_style_ok.
  - vm_compute. reflexivity.
Defined.

(** C6 without a word on the output path fails where that path is a
    directory: the four names are absent, the run prints the four warnings
    and raises at the save; nothing is written, no completion line. *)
Lemma C6_output_path_a_directory :
  (∀ f, f ∈ GO_FILES → disk output_is_a_directory !! f = None) ∧
  generate_document sample_docx no_control_chars output_is_a_directory
  = (Raise IsADirectoryError, output_is_a_directory_after) ∧
  disk output_is_a_directory_after = disk output_is_a_directory ∧
  saves (trace output_is_a_directory_after) = [].
Proof.
  split.
  - intros f Hin. unfold GO_FILES in Hin.
    repeat (apply elem_of_cons in Hin as [-> | Hin]; [vm_compute; reflexivity|]).
    by apply elem_of_nil in Hin.
  - split; [vm_compute; reflexivity|]. split; reflexivity.
Qed.

Lemma C6_witness :
  library_ok sample_docx no_control_chars ∧
  paragraphs sample_docx = [] ∧
  (∀ f, f ∈ GO_FILES → disk nothing_on_disk !! f = None) ∧
  save_error nothing_on_disk OUTPUT_DOC = None ∧
  let d := {| styles := styles sample_docx;
              paragraphs := [{| pPr := [pStyle "Title"];
                                runs := [RunText "Go Code Documentation"] |}] |} in
  generate_document sample_docx no_control_chars nothing_on_disk
  = (Ok (), {| disk := <[OUTPUT_DOC := Regular (Docx d)]> (disk nothing_on_disk);
               trace := trace nothing_on_disk ++ (Print ∘ warning <$> GO_FILES) ++
                        [Save OUTPUT_DOC d; Print completion];
               refused := refused nothing_on_disk |}) ∧
  page_breaks d = 0%nat ∧ code_blocks d = [].
Proof.
  split; [apply sample_library_ok|]. split; [reflexivity|].
  split; [intros f _; apply lookup_empty|].
  split; [vm_compute; reflexivity|].
  apply (C6_all_missing sample_docx no_control_chars nothing_on_disk).
  - apply sample_library_ok.
  - reflexivity.
  - intros f _. apply lookup_empty.
  - vm_compute. reflexivity.
Defined.

(** The run of C7 that saves: the loop completes with the three warnings
    and nothing written, then the one save of the loop's document. *)
Lemma C7_witness :
  add_heading no_control_chars "Go Code Documentation" 0 sample_docx
  = Ok titled_sample_docx ∧
  for_go_file no_control_chars GO_FILES titled_sample_docx only_blueprint
  = (Ok blueprint_docx, only_blueprint_before_save) ∧
  save_error only_blueprint OUTPUT_DOC = None ∧
  ∃ w', generate_document sample_docx no_control_chars only_blueprint = (Ok (), w') ∧
    disk w' = <[OUTPUT_DOC := Regular (Docx blueprint_docx)]> (disk only_blueprint) ∧
    trace w' = trace only_blueprint_before_save ++
               [Save OUTPUT_DOC blueprint_docx; Print completion] ∧
    saves (trace w') = saves (trace only_blueprint) ++ [(OUTPUT_DOC, blueprint_docx)].
Proof.
  assert (add_heading no_control_chars "Go Code Documentation" 0 sample_docx
          = Ok titled_sample_docx) as Htitled by (vm_compute; reflexivity).
  assert (for_go_file no_control_chars GO_FILES titled_sample_docx only_blueprint
          = (Ok blueprint_docx, only_blueprint_before_save)) as Hloop
    by (vm_compute; reflexivity).
  assert (save_error only_blueprint OUTPUT_DOC = None) as Hsave
    by (vm_compute; reflexivity).
  split; [exact Htitled|]. split; [exact Hloop|]. split; [exact Hsave|].
  pose proof (C7_saved_once_after_loop sample_docx no_control_chars only_blueprint) as H.
  rewrite Htitled, Hloop, Hsave in H.
  exact (proj2 (proj2 H)).
Defined.


(** The two runs of C8 return, and the run on the disk the first one left
    returns again with that disk. *)
Example blueprint_and_readme_run :
  (generate_document sample_docx no_control_chars blueprint_and_readme).1 = Ok () ∧
  disk (generate_document sample_docx no_control_chars blueprint_and_readme).2 !! OUTPUT_DOC
  = Some (Regular (Docx blueprint_docx)) ∧
  (generate_document sample_docx no_control_chars only_blueprint_after).1 = Ok () ∧
  disk (generate_document sample_docx no_control_chars only_blueprint_after).2
  = disk only_blueprint_after.
Proof. by vm_compute. Qed.

(** A run whose output path is refused raises at the save, after the
    file was read and formatted, and leaves the old file in place. *)
Example output_is_read_only_run :
  (generate_document sample_docx no_control_chars output_is_read_only).1
  = Raise PermissionError ∧
  disk (generate_document sample_docx no_control_chars output_is_read_only).2
  = disk output_is_read_only.
Proof. by vm_compute. Qed.

Lemma C9_witness :
  "eval.go" ∈ GO_FILES ∧
  disk directory_third !! "eval.go" = Some Directory ∧
  (Directory = Directory ∨ Directory = Special) ∧
  (∀ rest document,
     for_go_file no_control_chars ("eval.go" :: rest) document directory_third
     = for_go_file no_control_chars rest document
         {| disk := disk directory_third;
            trace := trace directory_third ++ [Print (warning "eval.go")];
            refused := refused directory_third |}) ∧
  let w0 := {| disk := delete "eval.go" (disk directory_third);
               trace := trace directory_third;
               refused := refused directory_third |} in
  (generate_document sample_docx no_control_chars directory_third).1
  = (generate_document sample_docx no_control_chars w0).1 ∧
  trace (generate_document sample_docx no_control_chars directory_third).2
  = trace (generate_document sample_docx no_control_chars w0).2.
Proof.
  split; [apply (bool_decide_unpack _); vm_compute; reflexivity|].
  split; [vm_compute; reflexivity|]. split; [left; reflexivity|].
  apply (C9_non_regular_like_missing sample_docx no_control_chars
           directory_third "eval.go" Directory).
  - apply (bool_decide_unpack _). vm_compute. reflexivity.
  - vm_compute. reflexivity.
  - left. reflexivity.
Defined.

Lemma C10_witness :
  add_code_paragraph no_control_chars formatted_once "package eval" = Ok formatted_twice ∧
  ∃ p, paragraphs formatted_twice = paragraphs formatted_once ++ [p] ∧
       pPr p = [pStyle "Code"; shd "D3D3D3"] ∧
       style_shd <$> styles formatted_twice
       = (style_shd <$> styles formatted_once) ++
         (if style_in "Code" (styles formatted_once) then [] else [None]).
Proof.
  split; [vm_compute; reflexivity|].
  apply (C10_shading_on_the_paragraph no_control_chars formatted_once
           "package eval" formatted_twice).
  vm_compute. reflexivity.
Defined.

(** * More on the loop, the run and the Formatter *)

Section Further.

Variable default_docx : Document.
Variable xml_compatible : string → bool.

Lemma failure_of_readable dk path c :
  as_file dk path = Some c →
  failure_of xml_compatible c = None ↔ readable xml_compatible dk path.
Proof.
  unfold as_file, readable. destruct (dk !! path) as [[| |c0]|]; try done.
  intros [= ->]. split.
  - destruct c as [t| | |]; simpl; try done.
    destruct t as [|a t]; [eauto|].
    destruct (xml_compatible (String a t)) eqn:Hok; [eauto | done].
  - intros (t & [= ->] & Ht). simpl. destruct t as [|a t]; [done|].
    destruct Ht as [? | ->]; done.
Qed.

(** The Formatter raises [ValueError] on a text the library refuses. *)
Lemma add_code_paragraph_rejected d code :
  code ≠ "" → xml_compatible code = false →
  add_code_paragraph xml_compatible d code = Raise ValueError.
Proof.
  intros Hne Hbad. unfold add_code_paragraph. rewrite formatter_styles. simpl.
  assert (∀ p, add_run xml_compatible code p = Raise ValueError) as Hrun.
  { intros p. unfold add_run. destruct code; [done | by rewrite Hbad]. }
  unfold set_paragraph_style. rewrite get_style_code_registered.
  destruct (get_style "Code" (styles d)) as [s|]; simpl.
  - case_bool_decide; simpl; [by rewrite Hrun | done].
  - by rewrite Hrun.
Qed.

(** A text the Formatter accepted is empty or acceptable to the library,
    and the 'Code' style it found was a paragraph style. *)
Lemma add_code_paragraph_Ok_inv d code d' :
  add_code_paragraph xml_compatible d code = Ok d' →
  (code = "" ∨ xml_compatible code = true) ∧
  (∀ s, get_style "Code" (styles d) = Some s → style_type s = PARAGRAPH).
Proof.
  intros Hok. split.
  - destruct code as [|a code]; [by left|]. right.
    destruct (xml_compatible (String a code)) eqn:Hbad; [done|].
    by rewrite add_code_paragraph_rejected in Hok.
  - intros s Hs. revert Hok. unfold add_code_paragraph.
    rewrite formatter_styles. simpl.
    unfold set_paragraph_style. rewrite get_style_code_registered, Hs.
    by case_bool_decide.
Qed.

(** A loop that returned met only readable files. *)
Lemma for_go_file_Ok_readable files : ∀ document w document' w',
  for_go_file xml_compatible files document w = (Ok document', w') →
  ∀ f, f ∈ files → is_regular (disk w) f = true →
       readable xml_compatible (disk w) f.
Proof.
  induction files as [|go_file rest IH]; intros document w document' w' Hrun f Hin Hreg;
    [by apply elem_of_nil in Hin|].
  rewrite for_go_file_cons in Hrun.
  destruct (is_regular (disk w) go_file) eqn:Hgo.
  - destruct (add_heading _ _ _ _) as [d1|e]; [|done].
    destruct (read_text go_file w).1 as [code|e] eqn:Hcode; [|done].
    destruct (add_code_paragraph _ _ _) as [d2|e] eqn:Hd2; [|done].
    apply elem_of_cons in Hin as [->|Hin]; [|by eapply IH].
    apply add_code_paragraph_Ok_inv in Hd2 as [Htext _].
    exists code. split; [|done].
    revert Hcode. unfold read_text. simpl.
    destruct (disk w !! go_file) as [[| |[]]|]; simpl; try done.
    by intros [= ->].
  - apply elem_of_cons in Hin as [->|Hin]; [congruence|].
    by apply (IH _ _ _ _ Hrun).
Qed.

(** X1. The loop over a list in two parts is the loop over the first part
    followed, on the document and world it left, by the loop over the
    second; an exception in the first part ends both. *)
Theorem X1_loop_in_two_parts files1 files2 : ∀ document w,
  for_go_file xml_compatible (files1 ++ files2) document w
  = match for_go_file xml_compatible files1 document w with
    | (Ok document', w') => for_go_file xml_compatible files2 document' w'
    | (Raise e, w') => (Raise e, w')
    end.
Proof.
  induction files1 as [|go_file rest IH]; intros document w; [done|].
  rewrite <- app_comm_cons, !for_go_file_cons.
  destruct (is_regular (disk w) go_file); [|apply IH].
  destruct (add_heading _ _ _ _) as [d1|e]; [|done].
  destruct (read_text go_file w).1 as [code|e]; [|done].
  destruct (add_code_paragraph _ _ _) as [d2|e]; [|done].
  apply IH.
Qed.

Lemma headings_app level d (more : list Paragraph) :
  paragraph_text <$> filter (is_heading level) (paragraphs d ++ more)
  = headings level d ++ (paragraph_text <$> filter (is_heading level) more).
Proof. unfold headings. by rewrite filter_app, fmap_app. Qed.

(** X2. From a document that has a paragraph, over any list of names
    (repeated names included), a loop that returns has added one section
    per processed entry, in order: the headings are the processed names,
    each with one page break and one code block holding the file's text;
    it has printed the warnings of the skipped entries and left the disk. *)
Theorem X2_loop_adds_a_section_per_entry files document w document' w' :
  paragraphs document ≠ [] →
  for_go_file xml_compatible files document w = (Ok document', w') →
  headings 1 document'
  = headings 1 document ++ filter (λ f, is_regular (disk w) f = true) files ∧
  page_breaks document'
  = (page_breaks document
     + length (filter (λ f, is_regular (disk w) f = true) files))%nat ∧
  code_blocks document'
  = code_blocks document ++
    (code_block_of ∘ text_at (disk w)
       <$> filter (λ f, is_regular (disk w) f = true) files) ∧
  trace w'
  = trace w ++ (Print ∘ warning <$> filter (λ f, is_regular (disk w) f = false) files) ∧
  disk w' = disk w.
Proof.
  intros Hne Hrun. apply for_go_file_Ok in Hrun as [-> ->]; [|done].
  fold (processed (disk w) files). fold (skipped (disk w) files).
  unfold headings at 1, page_breaks at 1, code_blocks at 1. simpl.
  rewrite !filter_app, headings_sections, page_breaks_sections, code_blocks_sections.
  rewrite fmap_app, length_app, length_replicate, <- list_fmap_compose.
  split; [|done]. unfold headings. f_equal.
  rewrite <- (list_fmap_id (processed (disk w) files)) at 2.
  apply list_fmap_ext. intros _ f _. apply paragraph_text_heading.
Qed.

(** X3. From a document without paragraphs the guard of the loop holds the
    page break back once: the first processed entry starts with its
    heading, and only the later ones are preceded by a page break. *)
Theorem X3_no_page_break_on_an_empty_document files : ∀ document w document' w',
  paragraphs document = [] →
  for_go_file xml_compatible files document w = (Ok document', w') →
  paragraphs document'
  = match filter (λ f, is_regular (disk w) f = true) files with
    | [] => []
    | first :: later =>
        heading_of 1 first :: code_block_of (text_at (disk w) first)
        :: (later ≫= section_of (disk w))
    end ∧
  page_breaks document'
  = (length (filter (λ f, is_regular (disk w) f = true) files) - 1)%nat.
Proof.
  induction files as [|go_file rest IH]; intros document w document' w' Hempty.
  - intros [= <- <-]. unfold page_breaks. by rewrite Hempty.
  - rewrite for_go_file_cons.
    change (filter (λ f, is_regular (disk w) f = true) (go_file :: rest))
      with (processed (disk w) (go_file :: rest)).
    rewrite processed_cons.
    destruct (is_regular (disk w) go_file) eqn:Hreg.
    + rewrite Hempty.
      destruct (add_heading _ _ _ _) as [d1|e] eqn:Hd1; [|done].
      apply add_heading_Ok in Hd1 as ->.
      destruct (read_text go_file w).1 as [code|e] eqn:Hcode; [|done].
      apply read_text_Ok in Hcode as ->.
      destruct (add_code_paragraph _ _ _) as [d2|e] eqn:Hd2; [|done].
      apply add_code_paragraph_Ok in Hd2 as ->.
      intros Hrun. apply for_go_file_Ok in Hrun as [_ ->];
        [|simpl; by intros [_ [=]]%app_eq_nil].
      simpl. rewrite Hempty. simpl. split; [done|].
      unfold page_breaks. simpl.
      rewrite filter_cons_False.
      2:{ unfold is_page_break, heading_of, text_runs. destruct go_file; simpl.
          - by intros ?%elem_of_nil.
          - intros [=]%list_elem_of_singleton. }
      rewrite filter_cons_False by (by intros [=]%list_elem_of_singleton).
      rewrite page_breaks_sections, length_replicate. lia.
    + intros Hrun. unfold processed. by apply (IH _ _ _ _ Hempty) in Hrun.
Qed.

Lemma generate_document_Ok_readable w w' :
  generate_document default_docx xml_compatible w = (Ok (), w') →
  ∀ f, f ∈ GO_FILES → is_regular (disk w) f = true →
       readable xml_compatible (disk w) f.
Proof.
  rewrite generate_document_eq.
  destruct (add_heading _ _ _ _) as [d0|e]; [|done].
  destruct (for_go_file _ _ _ _) as [[d|e] w1] eqn:Hloop; [|done].
  intros _. by eapply for_go_file_Ok_readable.
Qed.

Lemma sections_lookup dk (files : list string) : ∀ i f,
  files !! i = Some f →
  (files ≫= section_of dk) !! (3 * i)%nat = Some page_break_paragraph ∧
  (files ≫= section_of dk) !! (3 * i + 1)%nat = Some (heading_of 1 f) ∧
  (files ≫= section_of dk) !! (3 * i + 2)%nat
  = Some (code_block_of (text_at dk f)).
Proof.
  induction files as [|g files IH]; intros i f Hi; [done|].
  rewrite bind_cons. unfold section_of at 1 3 5.
  destruct i as [|i]; simpl in Hi.
  - by injection Hi as ->.
  - replace (3 * S i)%nat with (S (S (S (3 * i)))) by lia. simpl.
    by apply IH.
Qed.

Lemma sections_length dk (files : list string) :
  length (files ≫= section_of dk) = (3 * length files)%nat.
Proof.
  induction files as [|g files IH]; [done|].
  rewrite bind_cons, length_app, IH. simpl. lia.
Qed.

Lemma heading_of_GO_FILES f :
  f ∈ GO_FILES →
  heading_of 1 f = {| pPr := [pStyle "Heading 1"]; runs := [RunText f] |}.
Proof.
  unfold GO_FILES. intros Hin.
  repeat (apply elem_of_cons in Hin as [-> | Hin]; [done|]).
  by apply elem_of_nil in Hin.
Qed.

(** X4. The layout of a saved document: the title paragraph first, then
    three paragraphs for the i-th processed file, at 3i+1, 3i+2 and 3i+3:
    the page break, the level-1 heading with the name, and the code block
    whose one run is the text that reading the file returned. *)
Theorem X4_layout_of_the_saved_document w w' :
  paragraphs default_docx = [] →
  generate_document default_docx xml_compatible w = (Ok (), w') →
  ∃ d, disk w' !! OUTPUT_DOC = Some (Regular (Docx d)) ∧
    paragraphs d !! 0%nat
    = Some {| pPr := [pStyle "Title"]; runs := [RunText "Go Code Documentation"] |} ∧
    length (paragraphs d)
    = (1 + 3 * length (filter (λ f, is_regular (disk w) f = true) GO_FILES))%nat ∧
    ∀ i f, filter (λ f, is_regular (disk w) f = true) GO_FILES !! i = Some f →
      ∃ t, disk w !! f = Some (Regular (Utf8 t)) ∧
        paragraphs d !! (3 * i + 1)%nat
        = Some {| pPr := []; runs := [RunBreak PAGE] |} ∧
        paragraphs d !! (3 * i + 2)%nat
        = Some {| pPr := [pStyle "Heading 1"]; runs := [RunText f] |} ∧
        paragraphs d !! (3 * i + 3)%nat
        = Some {| pPr := [pStyle "Code"; shd "D3D3D3"]; runs := [RunText t] |}.
Proof.
  intros Hempty Hrun.
  pose proof (generate_document_Ok_readable _ _ Hrun) as Hread.
  apply generate_document_Ok in Hrun as ->.
  exists (assembled default_docx (disk w)).
  split; [simpl; apply lookup_insert_eq|].
  rewrite paragraphs_assembled by done. fold (processed (disk w) GO_FILES).
  split; [done|]. split; [simpl; by rewrite sections_length|].
  intros i f Hi.
  assert (f ∈ processed (disk w) GO_FILES) as [Hreg Hin]%list_elem_of_filter
    by (by eapply list_elem_of_lookup_2).
  destruct (readable_text _ _ _ (Hread f Hin Hreg)) as [Hlook _].
  exists (text_at (disk w) f). split; [done|].
  destruct (sections_lookup (disk w) _ _ _ Hi) as (Hpb & Hh & Hc).
  rewrite <- (heading_of_GO_FILES f Hin).
  replace (3 * i + 1)%nat with (S (3 * i)) by lia.
  replace (3 * i + 2)%nat with (S (3 * i + 1)) by lia.
  replace (3 * i + 3)%nat with (S (3 * i + 2)) by lia.
  done.
Qed.

(** X5. With the library as the script expects, a run returns exactly
    when every name of the list that is a regular file decodes as UTF-8 to
    a text the library accepts (an empty text always is) and the output
    path can be opened for writing. *)
Theorem X5_returns_iff_files_readable w :
  library_ok default_docx xml_compatible →
  (∃ w', generate_document default_docx xml_compatible w = (Ok (), w')) ↔
  (∀ f, f ∈ GO_FILES → is_regular (disk w) f = true →
        readable xml_compatible (disk w) f) ∧
  save_error w OUTPUT_DOC = None.
Proof.
  intros Hlib. split.
  - intros [w' Hrun]. split.
    + by eapply generate_document_Ok_readable.
    + by eapply generate_document_Ok_save.
  - intros [Hread Hsave]. eexists. by apply generate_document_returns.
Qed.

(** The loop stops at the first regular file that fails: it raises the
    exception of that file, having printed the warnings that precede it. *)
Lemma for_go_file_first_failure go_file post c e pre : ∀ document w,
  (∀ g, g ∈ pre → is_regular (disk w) g = true →
        readable xml_compatible (disk w) g) →
  (∀ g, g ∈ pre ++ [go_file] → xml_compatible g = true) →
  paragraph_style_in "Heading 1" (styles document) →
  (∀ s, get_style "Code" (styles document) = Some s → style_type s = PARAGRAPH) →
  as_file (disk w) go_file = Some c →
  failure_of xml_compatible c = Some e →
  for_go_file xml_compatible (pre ++ go_file :: post) document w
  = (Raise e, {| disk := disk w;
                 trace := trace w ++ (Print ∘ warning <$> skipped (disk w) pre);
                 refused := refused w |}).
Proof.
  induction pre as [|g pre IH]; intros document w Hread Hnames Hh1 Hcode Hc He.
  - rewrite app_nil_l.
    replace (Print ∘ warning <$> skipped (disk w) []) with (@nil event) by done.
    rewrite world_eta, for_go_file_cons.
    assert (is_regular (disk w) go_file = true) as ->.
    { revert Hc. unfold as_file, is_regular.
      by destruct (disk w !! go_file) as [[| |?]|]. }
    set (d0 := match paragraphs document with
               | [] => document
               | _ :: _ => add_page_break document
               end).
    assert (styles d0 = styles document) as Hd0
      by (unfold d0; by destruct (paragraphs document)).
    rewrite add_heading_accepted;
      [|lia | right; apply Hnames; set_solver | by rewrite Hd0].
    revert Hc. unfold as_file, read_text. simpl.
    destruct (disk w !! go_file) as [[| |c0]|]; try done. intros [= ->].
    destruct c as [t| | |]; simpl in *; try by injection He as <-.
    destruct t as [|a t]; [done|].
    destruct (xml_compatible (String a t)) eqn:Hbad; [done|].
    injection He as <-. by rewrite add_code_paragraph_rejected.
  - rewrite <- app_comm_cons, for_go_file_cons, skipped_cons.
    assert (∀ h, h ∈ pre → is_regular (disk w) h = true →
                 readable xml_compatible (disk w) h) as Hread'
      by (intros h Hin; apply Hread; by right).
    assert (∀ h, h ∈ pre ++ [go_file] → xml_compatible h = true) as Hnames'
      by (intros h Hin; apply Hnames; by right).
    destruct (is_regular (disk w) g) eqn:Hreg.
    + set (d0 := match paragraphs document with
                 | [] => document
                 | _ :: _ => add_page_break document
                 end).
      assert (styles d0 = styles document) as Hd0
        by (unfold d0; by destruct (paragraphs document)).
      rewrite add_heading_accepted;
        [|lia | right; apply Hnames; left | by rewrite Hd0].
      destruct (readable_text xml_compatible (disk w) g) as [Hlook Htext];
        [apply Hread; [left | done]|].
      unfold read_text. rewrite Hlook. simpl.
      rewrite add_code_paragraph_accepted; [|done | simpl; by rewrite Hd0].
      apply IH; simpl; try done.
      * rewrite Hd0. destruct Hh1 as (s & Hs & Hty). exists s.
        split; [by apply get_style_code_registered_other | done].
      * rewrite Hd0. intros s. rewrite get_style_code_registered.
        destruct (get_style "Code" (styles document)) eqn:E.
        -- intros [= <-]. by apply Hcode.
        -- by intros [= <-].
    + rewrite IH; simpl; try done.
      by rewrite <- app_assoc.
Qed.

(** X6. With the library as the script expects, the first regular file of
    the list that does not decode, cannot be opened, or holds a text the
    library refuses ends the run with its exception (UnicodeDecodeError,
    PermissionError, ValueError): the warnings of the names before it are
    printed, nothing is saved and no later name is looked at. *)
Theorem X6_first_failing_file_ends_the_run w pre go_file post c e :
  library_ok default_docx xml_compatible →
  GO_FILES = pre ++ go_file :: post →
  (∀ g, g ∈ pre → is_regular (disk w) g = true →
        readable xml_compatible (disk w) g) →
  as_file (disk w) go_file = Some c →
  failure_of xml_compatible c = Some e →
  generate_document default_docx xml_compatible w
  = (Raise e, {| disk := disk w;
                 trace := trace w ++
                   (Print ∘ warning <$> filter (λ f, is_regular (disk w) f = false) pre);
                 refused := refused w |}).
Proof.
  intros [Htitle Hh1 Hcode Hlit] Hlist Hread Hc He.
  apply Forall_cons in Hlit as [Htitle_ok Hnames].
  rewrite generate_document_eq.
  rewrite add_heading_accepted; [|lia | by right | done].
  rewrite Hlist.
  rewrite (for_go_file_first_failure go_file post c e pre); try done.
  intros g Hin. apply (proj1 (Forall_forall _ _) Hnames).
  rewrite Hlist. apply elem_of_app in Hin as [Hin | Hin%list_elem_of_singleton].
  - apply elem_of_app. by left.
  - subst g. apply elem_of_app. right. by left.
Qed.

(** X7. The Formatter returns exactly when the text is empty or accepted
    by the library and a style 'Code' the document has is a paragraph
    style; otherwise it raises [ValueError], whichever side fails. *)
Theorem X7_formatter_returns_or_raises_ValueError d code :
  match add_code_paragraph xml_compatible d code with
  | Ok d' =>
      (code = "" ∨ xml_compatible code = true) ∧
      (∀ s, get_style "Code" (styles d) = Some s → style_type s = PARAGRAPH)
  | Raise e =>
      e = ValueError ∧
      ((code ≠ "" ∧ xml_compatible code = false) ∨
       (∃ s, get_style "Code" (styles d) = Some s ∧ style_type s ≠ PARAGRAPH))
  end.
Proof.
  destruct (add_code_paragraph xml_compatible d code) as [d'|e] eqn:Hrun;
    [by eapply add_code_paragraph_Ok_inv|].
  destruct (decide (code = "")) as [Hempty | Hne];
    [|destruct (xml_compatible code) eqn:Hok].
  3:{ rewrite add_code_paragraph_rejected in Hrun by done.
      injection Hrun as <-. split; [done | by left]. }
  all: destruct (get_style "Code" (styles d)) as [s|] eqn:Hs.
  all: try (rewrite add_code_paragraph_accepted in Hrun;
            [done | by auto | by rewrite Hs]).
  all: destruct (decide (style_type s = PARAGRAPH)) as [Hty | Hty].
  all: try (rewrite add_code_paragraph_accepted in Hrun;
            [done | by auto | rewrite Hs; by intros ? [= <-]]).
  all: revert Hrun; unfold add_code_paragraph; rewrite formatter_styles; simpl;
    unfold set_paragraph_style; rewrite get_style_code_registered, Hs;
    rewrite bool_decide_eq_false_2 by done; intros [= <-];
    split; [done | right; eauto].
Qed.

(** X8. From a template without a style 'Code', the styles of the saved
    document are the template's, followed by the Formatter's 'Code' style,
    once, when at least one file was processed and by nothing otherwise. *)
Theorem X8_styles_of_the_saved_document w w' :
  style_in "Code" (styles default_docx) = false →
  generate_document default_docx xml_compatible w = (Ok (), w') →
  ∃ d, disk w' !! OUTPUT_DOC = Some (Regular (Docx d)) ∧
    styles d
    = styles default_docx ++
      match filter (λ f, is_regular (disk w) f = true) GO_FILES with
      | [] => []
      | _ :: _ => [registered_code_style]
      end ∧
    count_named "Code" (styles d)
    = match filter (λ f, is_regular (disk w) f = true) GO_FILES with
      | [] => 0%nat
      | _ :: _ => 1%nat
      end.
Proof.
  intros Hfree ->%generate_document_Ok.
  exists (assembled default_docx (disk w)).
  split; [simpl; apply lookup_insert_eq|].
  pose proof (proj1 (style_in_false_get_style _ _) Hfree) as Hnone.
  unfold assembled, code_registered, processed. simpl. rewrite Hfree.
  destruct (filter _ GO_FILES).
  - rewrite app_nil_r. split; [done|]. by apply count_named_zero.
  - split; [done|]. rewrite count_named_app, count_named_zero by done. done.
Qed.

Lemma processed_skipped_Permutation dk (files : list string) :
  processed dk files ++ skipped dk files ≡ₚ files.
Proof.
  induction files as [|f files IH]; [done|].
  rewrite processed_cons, skipped_cons. destruct (is_regular dk f); simpl.
  - by rewrite IH.
  - by rewrite <- Permutation_middle, IH.
Qed.

(** X9. In a run that returns every name of the list is dealt with once:
    the names that head a section and the names warned about are,
    together, the list, and no name is in both. *)
Theorem X9_each_name_headed_or_warned w w' :
  paragraphs default_docx = [] →
  generate_document default_docx xml_compatible w = (Ok (), w') →
  ∃ d warned,
    trace w' = trace w ++ (Print ∘ warning <$> warned) ++
               [Save OUTPUT_DOC d; Print completion] ∧
    headings 1 d ++ warned ≡ₚ GO_FILES ∧
    ∀ f, f ∈ headings 1 d → f ∉ warned.
Proof.
  intros Hempty ->%generate_document_Ok.
  exists (assembled default_docx (disk w)), (skipped (disk w) GO_FILES).
  rewrite headings_assembled by done.
  split; [done|]. split; [apply processed_skipped_Permutation|].
  intros f [Hreg _]%list_elem_of_filter [Hreg' _]%list_elem_of_filter.
  congruence.
Qed.

Lemma string_length_append (s t : string) :
  String.length (s +:+ t) = (String.length s + String.length t)%nat.
Proof.
  induction s as [|a s IH]; [done|].
  change (S (String.length (s +:+ t)) = S (String.length s + String.length t)).
  by rewrite IH.
Qed.

Lemma append_cancel_l (p x y : string) : p +:+ x = p +:+ y → x = y.
Proof.
  induction p as [|a p IH]; [done|].
  change (String a (p +:+ x) = String a (p +:+ y) → x = y).
  intros [= H]. by apply IH.
Qed.

Lemma append_cancel_r (t : string) : ∀ x y : string, x +:+ t = y +:+ t → x = y.
Proof.
  induction x as [|a x IH]; intros [|b y] H.
  - done.
  - apply (f_equal String.length) in H.
    rewrite !string_length_append in H. simpl in H. lia.
  - apply (f_equal String.length) in H.
    rewrite !string_length_append in H. simpl in H. lia.
  - change (String a (x +:+ t) = String b (y +:+ t)) in H.
    injection H as -> H. f_equal. by apply IH.
Qed.

(** X10. The warning line identifies the file: two names with the same
    warning line are the same name. *)
Theorem X10_warning_identifies_the_file f g :
  warning f = warning g → f = g.
Proof.
  unfold warning. intros H%append_cancel_l. by apply append_cancel_r in H.
Qed.

End Further.

(** * Concrete runs of the loop and of the Formatter *)

Example formatter_on_a_character_style :
  add_code_paragraph no_control_chars code_is_character_docx "package main"
  = Raise ValueError.
Proof. vm_compute. reflexivity. Qed.

Example formatter_on_a_control_character :
  add_code_paragraph no_control_chars sample_docx (String (Ascii.ascii_of_nat 12) "package main")
  = Raise ValueError.
Proof. vm_compute. reflexivity. Qed.

Lemma X2_witness :
  paragraphs formatted_once ≠ [] ∧
  for_go_file no_control_chars blueprint_twice formatted_once only_blueprint
  = (Ok blueprint_twice_after_code, blueprint_twice_world) ∧
  headings 1 blueprint_twice_after_code
  = headings 1 formatted_once ++
    filter (λ f, is_regular (disk only_blueprint) f = true) blueprint_twice ∧
  page_breaks blueprint_twice_after_code
  = (page_breaks formatted_once
     + length (filter (λ f, is_regular (disk only_blueprint) f = true) blueprint_twice))%nat ∧
  code_blocks blueprint_twice_after_code
  = code_blocks formatted_once ++
    (code_block_of ∘ text_at (disk only_blueprint)
       <$> filter (λ f, is_regular (disk only_blueprint) f = true) blueprint_twice) ∧
  trace blueprint_twice_world
  = trace only_blueprint ++
    (Print ∘ warning
       <$> filter (λ f, is_regular (disk only_blueprint) f = false) blueprint_twice) ∧
  disk blueprint_twice_world = disk only_blueprint.
Proof.
  split; [discriminate|]. split; [vm_compute; reflexivity|].
  apply (X2_loop_adds_a_section_per_entry no_control_chars blueprint_twice
           formatted_once only_blueprint blueprint_twice_after_code
           blueprint_twice_world);
    [discriminate | vm_compute; reflexivity].
Defined.

Lemma X3_witness :
  paragraphs sample_docx = [] ∧
  for_go_file no_control_chars blueprint_twice sample_docx only_blueprint
  = (Ok blueprint_twice_from_empty, blueprint_twice_world) ∧
  paragraphs blueprint_twice_from_empty
  = match filter (λ f, is_regular (disk only_blueprint) f = true) blueprint_twice with
    | [] => []
    | first :: later =>
        heading_of 1 first :: code_block_of (text_at (disk only_blueprint) first)
        :: (later ≫= section_of (disk only_blueprint))
    end ∧
  page_breaks blueprint_twice_from_empty
  = (length (filter (λ f, is_regular (disk only_blueprint) f = true) blueprint_twice) - 1)%nat.
Proof.
  split; [reflexivity|]. split; [vm_compute; reflexivity|].
  apply (X3_no_page_break_on_an_empty_document no_control_chars blueprint_twice
           sample_docx only_blueprint blueprint_twice_from_empty
           blueprint_twice_world);
    [reflexivity | vm_compute; reflexivity].
Defined.

Lemma X4_witness :
  paragraphs sample_docx = [] ∧
  generate_document sample_docx no_control_chars only_blueprint
  = (Ok (), only_blueprint_after) ∧
  ∃ d, disk only_blueprint_after !! OUTPUT_DOC = Some (Regular (Docx d)) ∧
    paragraphs d !! 0%nat
    = Some {| pPr := [pStyle "Title"]; runs := [RunText "Go Code Documentation"] |} ∧
    length (paragraphs d)
    = (1 + 3 * length (filter (λ f, is_regular (disk only_blueprint) f = true) GO_FILES))%nat ∧
    ∀ i f, filter (λ f, is_regular (disk only_blueprint) f = true) GO_FILES !! i = Some f →
      ∃ t, disk only_blueprint !! f = Some (Regular (Utf8 t)) ∧
        paragraphs d !! (3 * i + 1)%nat
        = Some {| pPr := []; runs := [RunBreak PAGE] |} ∧
        paragraphs d !! (3 * i + 2)%nat
        = Some {| pPr := [pStyle "Heading 1"]; runs := [RunText f] |} ∧
        paragraphs d !! (3 * i + 3)%nat
        = Some {| pPr := [pStyle "Code"; shd "D3D3D3"]; runs := [RunText t] |}.
Proof.
  split; [reflexivity|]. split; [vm_compute; reflexivity|].
  apply (X4_layout_of_the_saved_document sample_docx no_control_chars
           only_blueprint only_blueprint_after);
    [reflexivity | vm_compute; reflexivity].
Defined.

Lemma X5_witness :
  library_ok sample_docx no_control_chars ∧
  ((∃ w', generate_document sample_docx no_control_chars only_blueprint = (Ok (), w')) ↔
   (∀ f, f ∈ GO_FILES → is_regular (disk only_blueprint) f = true →
         readable no_control_chars (disk only_blueprint) f) ∧
   save_error only_blueprint OUTPUT_DOC = None).
Proof.
  split; [apply sample_library_ok|].
  apply (X5_returns_iff_files_readable sample_docx no_control_chars only_blueprint).
  apply sample_library_ok.
Defined.

Lemma X6_witness :
  library_ok sample_docx no_control_chars ∧
  GO_FILES = ["blueprint.go"] ++ "neuron.go" :: ["eval.go"; "utils.go"] ∧
  (∀ g, g ∈ ["blueprint.go"] → is_regular (disk undecodable_second) g = true →
        readable no_control_chars (disk undecodable_second) g) ∧
  as_file (disk undecodable_second) "neuron.go" = Some NotUtf8 ∧
  failure_of no_control_chars NotUtf8 = Some UnicodeDecodeError ∧
  generate_document sample_docx no_control_chars undecodable_second
  = (Raise UnicodeDecodeError,
     {| disk := disk undecodable_second;
        trace := trace undecodable_second ++
          (Print ∘ warning
             <$> filter (λ f, is_regular (disk undecodable_second) f = false)
                   ["blueprint.go"]);
        refused := refused undecodable_second |}).
Proof.
  assert (∀ g, g ∈ ["blueprint.go"] →
               is_regular (disk undecodable_second) g = true →
               readable no_control_chars (disk undecodable_second) g) as Hread.
  { intros g Hin _. apply elem_of_cons in Hin as [-> | Hin].
    - exists "package main". split; [vm_compute; reflexivity | right; reflexivity].
    - by apply elem_of_nil in Hin. }
  split; [apply sample_library_ok|]. split; [reflexivity|].
  split; [exact Hread|]. split; [vm_compute; reflexivity|]. split; [reflexivity|].
  apply (X6_first_failing_file_ends_the_run sample_docx no_control_chars
           undecodable_second ["blueprint.go"] "neuron.go" ["eval.go"; "utils.go"]
           NotUtf8 UnicodeDecodeError).
  - apply sample_library_ok.
  - reflexivity.
  - exact Hread.
  - vm_compute. reflexivity.
  - reflexivity.
Defined.

Lemma X8_witness :
  style_in "Code" (styles sample_docx) = false ∧
  generate_document sample_docx no_control_chars only_blueprint
  = (Ok (), only_blueprint_after) ∧
  ∃ d, disk only_blueprint_after !! OUTPUT_DOC = Some (Regular (Docx d)) ∧
    styles d
    = styles sample_docx ++
      match filter (λ f, is_regular (disk only_blueprint) f = true) GO_FILES with
      | [] => []
      | _ :: _ => [registered_code_style]
      end ∧
    count_named "Code" (styles d)
    = match filter (λ f, is_regular (disk only_blueprint) f = true) GO_FILES with
      | [] => 0%nat
      | _ :: _ => 1%nat
      end.
Proof.
  split; [vm_compute; reflexivity|]. split; [vm_compute; reflexivity|].
  apply (X8_styles_of_the_saved_document sample_docx no_control_chars
           only_blueprint only_blueprint_after);
    vm_compute; reflexivity.
Defined.

Lemma X9_witness :
  paragraphs sample_docx = [] ∧
  generate_document sample_docx no_control_chars only_blueprint
  = (Ok (), only_blueprint_after) ∧
  ∃ d warned,
    trace only_blueprint_after
    = trace only_blueprint ++ (Print ∘ warning <$> warned) ++
      [Save OUTPUT_DOC d; Print completion] ∧
    headings 1 d ++ warned ≡ₚ GO_FILES ∧
    ∀ f, f ∈ headings 1 d → f ∉ warned.
Proof.
  split; [reflexivity|]. split; [vm_compute; reflexivity|].
  apply (X9_each_name_headed_or_warned sample_docx no_control_chars
           only_blueprint only_blueprint_after);
    [reflexivity | vm_compute; reflexivity].
Defined.

Lemma X10_witness :
  warning "eval.go" = warning "eval.go" ∧ "eval.go" = "eval.go".
Proof.
  split; [reflexivity|].
  apply (X10_warning_identifies_the_file "eval.go" "eval.go"). reflexivity.
Defined.
